(** * coverage/debug.py: control of and utilities for debugging

    A shallow embedding of [coverage/debug.py] and the properties of its
    debug controller, output sink, text filters and stack formatter.

    Conventions of the embedding:
    - a Python [str] is a [string]; a character is a code point below 256;
    - a Python [int] is a [Z]; process ids are [N];
    - effects (the streams written to, the files opened, the process-wide
      singleton kept in [sys.modules], the [CwdTracker] objects) live in a
      [World] that is threaded through a state-and-exception monad;
    - objects that are never mutated after construction are records that
      carry their identity in an [oid] field. *)

From Stdlib Require Import ZArith NArith Lia Bool List.
From Stdlib Require Import Strings.Ascii Strings.String.
From Stdlib Require Import Numbers.DecimalString Numbers.HexadecimalString.
From stdpp Require Import base option list gmap strings.

Import ListNotations.
Local Open Scope string_scope.
Local Open Scope list_scope.

(** ** Python strings *)

Module PyStr.

Definition code (c : ascii) : N := N_of_ascii c.

(** [str.isspace] on the code points below 256. *)
Definition is_space (c : ascii) : bool :=
  let n := code c in
  ((9 <=? n) && (n <=? 13) || (28 <=? n) && (n <=? 32)
   || (n =? 133) || (n =? 160))%N.

(** The line boundaries of [str.splitlines] below 256, [\r\n] apart. *)
Definition is_linebreak (c : ascii) : bool :=
  let n := code c in
  ((10 <=? n) && (n <=? 13) || (28 <=? n) && (n <=? 30) || (n =? 133))%N.

Definition LF : ascii := ascii_of_N 10.
Definition CR : ascii := ascii_of_N 13.
Definition nl : string := String LF EmptyString.

Definition is_empty (s : string) : bool :=
  match s with EmptyString => true | String _ _ => false end.

(** [s.rstrip()] *)
Fixpoint rstrip (s : string) : string :=
  match s with
  | EmptyString => EmptyString
  | String c s' =>
      let r := rstrip s' in
      if is_space c && is_empty r then EmptyString else String c r
  end.

(** [s[n:]] for [0 <= n] *)
Fixpoint drop (n : nat) (s : string) : string :=
  match n, s with
  | O, _ => s
  | S _, EmptyString => EmptyString
  | S n', String _ s' => drop n' s'
  end.

Definition starts_with_LF (s : string) : bool :=
  match s with
  | String c _ => Ascii.eqb c LF
  | EmptyString => false
  end.

(** [s.splitlines()]: the lines of [s] without their line boundaries; a
    final boundary opens no further line, and [\r\n] is one boundary. *)
Fixpoint splitlines (s : string) : list string :=
  match s with
  | EmptyString => []
  | String c s' =>
      if is_linebreak c then
        if Ascii.eqb c CR && starts_with_LF s' then splitlines s'
        else EmptyString :: splitlines s'
      else
        match splitlines s' with
        | [] => [String c EmptyString]
        | l :: ls => String c l :: ls
        end
  end.

(** [sep.join(parts)] *)
Definition join (sep : string) (parts : list string) : string :=
  String.concat sep parts.

Fixpoint repeat_char (c : ascii) (n : nat) : string :=
  match n with
  | O => EmptyString
  | S n' => String c (repeat_char c n')
  end.

(** [s.rjust(width, fill)], the padding of [%30s], [:5d] and [:04x]. *)
Definition rjust (width : nat) (fill : ascii) (s : string) : string :=
  repeat_char fill (width - String.length s) +:+ s.

Definition dec (n : N) : string :=
  DecimalString.NilZero.string_of_uint (N.to_uint n).
Definition hex (n : N) : string :=
  HexadecimalString.NilZero.string_of_uint (N.to_hex_uint n).

(** ["%d" % z], [repr(z)] and [f"{z:Wd}"] of an [int]. *)
Definition format_d (width : nat) (z : Z) : string :=
  rjust width " "
    (if (z <? 0)%Z then "-" +:+ dec (Z.abs_N z) else dec (Z.to_N z)).

(** [f"{z:0Wx}"]: the zero padding goes between the sign and the digits. *)
Definition format_0x (width : nat) (z : Z) : string :=
  if (z <? 0)%Z then "-" +:+ rjust (width - 1) "0" (hex (Z.abs_N z))
  else rjust width "0" (hex (Z.to_N z)).

Definition hex_digit (n : N) : ascii :=
  ascii_of_N (if (n <? 10)%N then 48 + n else 87 + n).

(** [str.isprintable] on one code point below 256. *)
Definition is_printable (c : ascii) : bool :=
  let n := code c in
  ((32 <=? n) && (n <? 127) || (161 <=? n) && negb (n =? 173))%N.

Fixpoint contains (c : ascii) (s : string) : bool :=
  match s with
  | EmptyString => false
  | String d s' => Ascii.eqb c d || contains c s'
  end.

Definition backslash : ascii := ascii_of_N 92.
Definition dquote : ascii := ascii_of_N 34.
Definition squote : ascii := ascii_of_N 39.

Definition repr_char (quote : ascii) (c : ascii) : string :=
  let bs := backslash in
  if Ascii.eqb c quote || Ascii.eqb c bs then String bs (String c EmptyString)
  else if (code c =? 9)%N then String bs "t"
  else if (code c =? 10)%N then String bs "n"
  else if (code c =? 13)%N then String bs "r"
  else if is_printable c then String c EmptyString
  else String bs (String "x" (String (hex_digit (code c / 16))
                                (String (hex_digit (code c mod 16)) EmptyString))).

Fixpoint repr_body (quote : ascii) (s : string) : string :=
  match s with
  | EmptyString => EmptyString
  | String c s' => repr_char quote c +:+ repr_body quote s'
  end.

(** [repr(s)] of a [str]: single quotes, unless [s] has a single quote
    and no double quote. *)
Definition repr (s : string) : string :=
  let quote : ascii :=
    if contains squote s && negb (contains dquote s) then dquote
    else squote in
  String quote (repr_body quote s) +:+ String quote EmptyString.

(** [repr(l)] of a list of [str] *)
Definition repr_list (l : list string) : string :=
  "[" +:+ join ", " (map repr l) +:+ "]".

End PyStr.

(** ** The process, its streams and the exceptions raised *)

(** The objects a debug sink writes to: [sys.stdout], [sys.stderr], a file
    opened for appending, or an [io.StringIO] buffer. *)
Inductive IO : Type :=
| sys_stdout
| sys_stderr
| FileObj (name : string)
| StringIO (oid : nat).

Definition IO_eqb (a b : IO) : bool :=
  match a, b with
  | sys_stdout, sys_stdout | sys_stderr, sys_stderr => true
  | FileObj n, FileObj m => String.eqb n m
  | StringIO i, StringIO j => Nat.eqb i j
  | _, _ => false
  end.

Inductive Event : Type :=
| EvOpen (name : string)
| EvWrite (f : IO) (text : string)
| EvFlush (f : IO).

Inductive Exn : Type :=
| AssertionError (msg : string)
| OSError (name : string)
| IndexError
| AttributeError.

(** One entry of [inspect.stack()]: [t[3]], [t[1]], [t[2]], and the [repr]
    of the local [self] of [t[0]] when there is one that is not [None]. *)
Record FrameInfo : Type := {
  function : string;
  filename : string;
  lineno : Z;
  f_self : option string
}.

(** A text filter of a sink: [add_pid_and_tid], the bound method
    [CwdTracker().filter] of the tracker object [tracker], or any other
    function from [str] to [str]. *)
Inductive Filter : Type :=
| F_add_pid_and_tid
| F_CwdTracker_filter (tracker : nat)
| F_function (fn : string -> string).

(** class DebugOutputFile: its fields are assigned in [__init__] only. *)
Record DebugOutputFile : Type := {
  oid : nat;
  outfile : option IO;
  show_process : bool;
  filters : list Filter
}.

(** A module object, as far as [getattr] and [setattr] on the attribute
    [SINGLETON_ATTR] see it. *)
Record ModuleType : Type := {
  the_one_and_is_interim : option (DebugOutputFile * bool)
}.

Record World : Type := {
  os_getpid : N;
  (** [None] when [hasattr(os, "getppid")] is false *)
  os_getppid : option N;
  thread_get_ident : Z;
  os_getcwd : string;
  sys_executable : string;
  (** [getattr(sys, "argv", None)] *)
  sys_argv : option (list string);
  os_environ : gmap string string;
  (** whether [open(name, "a", encoding="utf-8")] succeeds *)
  can_append : string -> bool;
  FORCED_DEBUG : list string;
  FORCED_DEBUG_FILE : option string;
  sys_modules : gmap string ModuleType;
  (** the frames below the running function of this module, innermost first *)
  call_stack : list FrameInfo;
  (** [__file__] of this module *)
  debug_py : string;
  next_oid : nat;
  (** the [cwd] attribute of each [CwdTracker] object *)
  tracker_cwd : nat -> option string;
  (** what was opened, written and flushed, oldest first *)
  events : list Event
}.

Definition set_sys_modules (m : gmap string ModuleType) (w : World) : World :=
  {| os_getpid := os_getpid w; os_getppid := os_getppid w;
     thread_get_ident := thread_get_ident w; os_getcwd := os_getcwd w;
     sys_executable := sys_executable w; sys_argv := sys_argv w;
     os_environ := os_environ w; can_append := can_append w;
     FORCED_DEBUG := FORCED_DEBUG w; FORCED_DEBUG_FILE := FORCED_DEBUG_FILE w;
     sys_modules := m; call_stack := call_stack w; debug_py := debug_py w;
     next_oid := next_oid w; tracker_cwd := tracker_cwd w;
     events := events w |}.

Definition set_call_stack (s : list FrameInfo) (w : World) : World :=
  {| os_getpid := os_getpid w; os_getppid := os_getppid w;
     thread_get_ident := thread_get_ident w; os_getcwd := os_getcwd w;
     sys_executable := sys_executable w; sys_argv := sys_argv w;
     os_environ := os_environ w; can_append := can_append w;
     FORCED_DEBUG := FORCED_DEBUG w; FORCED_DEBUG_FILE := FORCED_DEBUG_FILE w;
     sys_modules := sys_modules w; call_stack := s; debug_py := debug_py w;
     next_oid := next_oid w; tracker_cwd := tracker_cwd w;
     events := events w |}.

Definition set_next_oid (n : nat) (w : World) : World :=
  {| os_getpid := os_getpid w; os_getppid := os_getppid w;
     thread_get_ident := thread_get_ident w; os_getcwd := os_getcwd w;
     sys_executable := sys_executable w; sys_argv := sys_argv w;
     os_environ := os_environ w; can_append := can_append w;
     FORCED_DEBUG := FORCED_DEBUG w; FORCED_DEBUG_FILE := FORCED_DEBUG_FILE w;
     sys_modules := sys_modules w; call_stack := call_stack w;
     debug_py := debug_py w;
     next_oid := n; tracker_cwd := tracker_cwd w;
     events := events w |}.

Definition set_tracker_cwd (t : nat -> option string) (w : World) : World :=
  {| os_getpid := os_getpid w; os_getppid := os_getppid w;
     thread_get_ident := thread_get_ident w; os_getcwd := os_getcwd w;
     sys_executable := sys_executable w; sys_argv := sys_argv w;
     os_environ := os_environ w; can_append := can_append w;
     FORCED_DEBUG := FORCED_DEBUG w; FORCED_DEBUG_FILE := FORCED_DEBUG_FILE w;
     sys_modules := sys_modules w; call_stack := call_stack w;
     debug_py := debug_py w;
     next_oid := next_oid w; tracker_cwd := t;
     events := events w |}.

Definition set_events (e : list Event) (w : World) : World :=
  {| os_getpid := os_getpid w; os_getppid := os_getppid w;
     thread_get_ident := thread_get_ident w; os_getcwd := os_getcwd w;
     sys_executable := sys_executable w; sys_argv := sys_argv w;
     os_environ := os_environ w; can_append := can_append w;
     FORCED_DEBUG := FORCED_DEBUG w; FORCED_DEBUG_FILE := FORCED_DEBUG_FILE w;
     sys_modules := sys_modules w; call_stack := call_stack w;
     debug_py := debug_py w;
     next_oid := next_oid w; tracker_cwd := tracker_cwd w;
     events := e |}.

(** *** The state-and-exception monad *)

Inductive Outcome (A : Type) : Type :=
| Ok (a : A)
| Raise (e : Exn).
Arguments Ok {A} a.
Arguments Raise {A} e.

Definition M (A : Type) : Type := World -> Outcome A * World.

Definition ret {A} (a : A) : M A := fun w => (Ok a, w).

Definition raise {A} (e : Exn) : M A := fun w => (Raise e, w).

Definition bind {A B} (m : M A) (k : A -> M B) : M B :=
  fun w =>
    match m w with
    | (Ok a, w') => k a w'
    | (Raise e, w') => (Raise e, w')
    end.

Notation "x <- m ;; k" := (bind m (fun x => k))
  (at level 100, m at next level, right associativity).
Notation "m ;;; k" := (bind m (fun _ => k))
  (at level 100, right associativity).

Definition gets {A} (f : World -> A) : M A := fun w => (Ok (f w), w).

Definition modify (f : World -> World) : M unit := fun w => (Ok tt, f w).

Definition emit (e : Event) : M unit :=
  modify (fun w => set_events (events w ++ [e]) w).

(** A new object identity. *)
Definition new_oid : M nat :=
  fun w => (Ok (next_oid w), set_next_oid (S (next_oid w)) w).

Fixpoint foldM {A B} (f : A -> B -> M A) (l : list B) (a : A) : M A :=
  match l with
  | [] => ret a
  | b :: l' => a' <- f a b ;; foldM f l' a'
  end.

(** The texts written to [f] by the events [evs], one after the other. *)
Definition written (f : IO) (evs : list Event) : string :=
  fold_right
    (fun e acc =>
       match e with
       | EvWrite g text => if IO_eqb f g then text +:+ acc else acc
       | _ => acc
       end)
    EmptyString evs.

(** Everything written to [f] so far: [f.getvalue()] for a [StringIO]. *)
Definition content (f : IO) (w : World) : string := written f (events w).

(** ** The module [coverage.debug] *)

Import PyStr.

(** *** [short_id], [add_pid_and_tid] *)

(** Given a 64-bit id, make a shorter 16-bit one. *)
Definition short_id (id64 : Z) : Z :=
  let id16 :=
    fold_left (fun id16 offset => Z.lxor id16 (Z.shiftr id64 offset))
      [0; 16; 32; 48]%Z 0%Z in
  Z.land id16 65535.

(** A filter to add pid and tid to debug messages. *)
Definition add_pid_and_tid (text : string) : M string :=
  ident <- gets thread_get_ident ;;
  let tid := format_0x 4 (short_id ident) in
  pid <- gets os_getpid ;;
  ret (format_d 5 (Z.of_N pid) +:+ "." +:+ tid +:+ ": " +:+ text).

(** *** class CwdTracker *)

Record CwdTracker : Type := { cwd : option string }.

Definition CwdTracker_init : CwdTracker := {| cwd := None |}.

(** [CwdTracker.filter], as a function of [os.getcwd()] and of the object's
    state; it returns the text and the object's new state. *)
Definition CwdTracker_filter (self : CwdTracker) (getcwd : string)
    (text : string) : string * CwdTracker :=
  if bool_decide (Some getcwd <> cwd self) then
    ("cwd is now " +:+ repr getcwd +:+ nl +:+ text, {| cwd := Some getcwd |})
  else (text, self).

(** [CwdTracker()] allocated in the world. *)
Definition new_CwdTracker : M nat :=
  t <- new_oid ;;
  modify (fun w =>
            set_tracker_cwd
              (fun t' => if Nat.eqb t' t then cwd CwdTracker_init
                         else tracker_cwd w t') w) ;;;
  ret t.

Definition run_CwdTracker_filter (t : nat) (text : string) : M string :=
  fun w =>
    let '(text', self') :=
      CwdTracker_filter {| cwd := tracker_cwd w t |} (os_getcwd w) text in
    (Ok text',
     set_tracker_cwd
       (fun t' => if Nat.eqb t' t then cwd self' else tracker_cwd w t') w).

(** *** [filter_text] *)

(** The call [fn(line)] of a filter. *)
Definition call_filter (fn : Filter) (line : string) : M string :=
  match fn with
  | F_add_pid_and_tid => add_pid_and_tid line
  | F_CwdTracker_filter t => run_CwdTracker_filter t line
  | F_function f => ret (f line)
  end.

(** Run [text] through a series of filters. *)
Definition filter_text (text : string) (filters : list Filter) : M string :=
  let clean_text := rstrip text in
  let ending := drop (String.length clean_text) text in
  text <- foldM
            (fun text fn =>
               lines <- foldM
                          (fun lines line =>
                             r <- call_filter fn line ;;
                             ret (lines ++ splitlines r))
                          (splitlines text) [] ;;
               ret (join nl lines))
            filters clean_text ;;
  ret (text +:+ ending).

(** *** class DebugOutputFile *)

Definition DebugOutputFile_write (self : DebugOutputFile) (text : string)
    : M unit :=
  match outfile self with
  | None => raise (AssertionError EmptyString)
  | Some f =>
      filtered <- filter_text text (filters self) ;;
      emit (EvWrite f filtered) ;;;
      emit (EvFlush f)
  end.

Definition DebugOutputFile_flush (self : DebugOutputFile) : M unit :=
  match outfile self with
  | None => raise (AssertionError EmptyString)
  | Some f => emit (EvFlush f)
  end.

(** [repr(getattr(sys, "argv", None))] *)
Definition repr_argv (argv : option (list string)) : string :=
  match argv with
  | Some l => repr_list l
  | None => "None"
  end.

(** [DebugOutputFile(outfile, show_process, filters)] *)
Definition DebugOutputFile_init (outfile : option IO) (show_process : bool)
    (filters : list Filter) : M DebugOutputFile :=
  oid <- new_oid ;;
  if show_process then
    t <- new_CwdTracker ;;
    let self := {| oid := oid; outfile := outfile;
                   show_process := show_process;
                   filters := F_CwdTracker_filter t :: filters |} in
    executable <- gets sys_executable ;;
    DebugOutputFile_write self
      ("New process: executable: " +:+ repr executable +:+ nl) ;;;
    argv <- gets sys_argv ;;
    DebugOutputFile_write self
      ("New process: cmd: " +:+ repr_argv argv +:+ nl) ;;;
    getppid <- gets os_getppid ;;
    match getppid with
    | Some ppid =>
        pid <- gets os_getpid ;;
        DebugOutputFile_write self
          ("New process: pid: " +:+ format_d 0 (Z.of_N pid)
           +:+ ", parent pid: " +:+ format_d 0 (Z.of_N ppid) +:+ nl)
    | None => ret tt
    end ;;;
    ret self
  else
    ret {| oid := oid; outfile := outfile; show_process := show_process;
           filters := filters |}.

Definition SYS_MOD_NAME : string := "$coverage.debug.DebugOutputFile.the_one".

(** Set the one DebugOutputFile to rule them all. *)
Definition _set_singleton_data (the_one : DebugOutputFile) (interim : bool)
    : M unit :=
  let singleton_module :=
    {| the_one_and_is_interim := Some (the_one, interim) |} in
  modify (fun w =>
            set_sys_modules
              (<[SYS_MOD_NAME := singleton_module]> (sys_modules w)) w).

(** Get the one DebugOutputFile. *)
Definition _get_singleton_data : M (option DebugOutputFile * bool) :=
  gets (fun w =>
          match sys_modules w !! SYS_MOD_NAME with
          | Some singleton_module =>
              match the_one_and_is_interim singleton_module with
              | Some (the_one, interim) => (Some the_one, interim)
              | None => (None, true)
              end
          | None => (None, true)
          end).

(** Delete the one DebugOutputFile, just for tests to use. *)
Definition _del_singleton_data : M unit :=
  modify (fun w => set_sys_modules (delete SYS_MOD_NAME (sys_modules w)) w).

(** [open(file_name, "a", encoding="utf-8")] *)
Definition open_append (file_name : string) : M IO :=
  ok <- gets (fun w => can_append w file_name) ;;
  if ok : bool then emit (EvOpen file_name) ;;; ret (FileObj file_name)
  else raise (OSError file_name).

(** [getattr(sys, file_name)] for ["stdout"] and ["stderr"] *)
Definition getattr_sys (file_name : string) : IO :=
  if String.eqb file_name "stdout" then sys_stdout else sys_stderr.

(** The statements of [get_one] that assign [fileobj] when a new singleton
    is to be made: [if file_name is not None: ... else: ...]. *)
Definition get_one_fileobj (file_name : option string) : M IO :=
  match file_name with
  | Some file_name => open_append file_name
  | None =>
      environ <- gets os_environ ;;
      forced <- gets FORCED_DEBUG_FILE ;;
      (* os.environ.get("COVERAGE_DEBUG_FILE", FORCED_DEBUG_FILE) *)
      let file_name :=
        match environ !! "COVERAGE_DEBUG_FILE" with
        | Some v => Some v
        | None => forced
        end in
      match file_name with
      | Some v =>
          if String.eqb v "stdout" || String.eqb v "stderr"
          then ret (getattr_sys v)
          else if negb (is_empty v) then open_append v
          else ret sys_stderr
      | None => ret sys_stderr
      end
  end.

(** Get a DebugOutputFile. *)
Definition get_one (fileobj : option IO) (file_name : option string)
    (show_process : bool) (filters : list Filter) (interim : bool)
    : M DebugOutputFile :=
  match fileobj with
  | Some _ => DebugOutputFile_init fileobj show_process filters
  | None =>
      data <- _get_singleton_data ;;
      let '(the_one, is_interim) := data in
      match the_one, is_interim with
      | Some the_one, false => ret the_one
      | _, _ =>
          fileobj <- get_one_fileobj file_name ;;
          the_one <- DebugOutputFile_init (Some fileobj) show_process filters ;;
          _set_singleton_data the_one interim ;;;
          ret the_one
      end
  end.

(** The pair [_get_singleton_data] reads from [sys.modules]. *)
Definition singleton_of (w : World) : option DebugOutputFile * bool :=
  match _get_singleton_data w with
  | (Ok d, _) => d
  | (Raise _, _) => (None, true)
  end.

(** *** [short_stack], [dump_stack_frames] *)

(** A bound of a slice with a negative step, adjusted to a sequence of
    length [len] the way [slice.indices] does. *)
Definition adjust_index (len i : Z) : Z :=
  if (i <? 0)%Z then (if (i + len <? 0)%Z then -1 else i + len)%Z
  else if (len <=? i)%Z then (len - 1)%Z else i.

(** [l[start:stop:-1]]: the elements at [start], [start - 1], ... down to,
    and without, [stop]. *)
Definition slice_rev {A} (l : list A) (start stop : option Z) : list A :=
  let len := Z.of_nat (length l) in
  let start := match start with
               | None => (len - 1)%Z
               | Some i => adjust_index len i
               end in
  let stop := match stop with
              | None => (-1)%Z
              | Some i => adjust_index len i
              end in
  rev (firstn (Z.to_nat (start - stop)) (skipn (Z.to_nat (stop + 1)) l)).

(** ["%30s : %s:%d" % (t[3], t[1], t[2])] *)
Definition frame_line (t : FrameInfo) : string :=
  rjust 30 " " (function t) +:+ " : " +:+ filename t +:+ ":"
  +:+ format_d 0 (lineno t).

(** The body of [short_stack] once [inspect.stack()] has returned [stack]
    (its entry 0 is the frame of [short_stack] itself). *)
Definition short_stack_on (stack : list FrameInfo) (limit : option Z)
    (skip : Z) : string :=
  let stack := slice_rev stack limit (Some skip) in
  join nl (map frame_line stack).

(** The frame of a function of this module that is running line [line]. *)
Definition own_frame (name : string) (line : Z) (w : World) : FrameInfo :=
  {| function := name; filename := debug_py w; lineno := line;
     f_self := None |}.

(** [inspect.stack()] called on line [line] of the function [name]. *)
Definition inspect_stack (name : string) (line : Z) : M (list FrameInfo) :=
  gets (fun w => own_frame name line w :: call_stack w).

(** Run [m], a call made on line [line] of the function [name]. *)
Definition calling {A} (name : string) (line : Z) (m : M A) : M A :=
  fun w =>
    let '(r, w') := m (set_call_stack (own_frame name line w :: call_stack w) w) in
    (r, set_call_stack (call_stack w) w').

(** Return a string summarizing the call stack. *)
Definition short_stack (limit : option Z) (skip : Z) : M string :=
  stack <- inspect_stack "short_stack" 200 ;;
  ret (short_stack_on stack limit skip).

(** What [dump_stack_frames] can write to. *)
Inductive TWritable : Type :=
| W_DebugOutputFile (out : DebugOutputFile)
| W_IO (f : IO).

Definition TWritable_write (fout : TWritable) (text : string) : M unit :=
  match fout with
  | W_DebugOutputFile out => DebugOutputFile_write out text
  | W_IO f => emit (EvWrite f text)
  end.

(** Print a summary of the stack to stdout, or someplace else. *)
Definition dump_stack_frames (limit : option Z) (out : option TWritable)
    (skip : Z) : M unit :=
  let fout := match out with Some o => o | None => W_IO sys_stdout end in
  text <- calling "dump_stack_frames" 211 (short_stack limit (skip + 1)) ;;
  TWritable_write fout text ;;;
  TWritable_write fout nl.

(** *** class DebugControl *)

Record DebugControl : Type := {
  options : list string;
  suppress_callers : bool;
  output : DebugOutputFile;
  raw_output : option IO
}.

(** [option in options] *)
Definition py_in (option : string) (options : list string) : bool :=
  existsb (String.eqb option) options.

(** The body of [DebugControl.should] on the two attributes it reads;
    [__init__] calls it before the other attributes are assigned. *)
Definition should_on (options : list string) (suppress_callers : bool)
    (option : string) : bool :=
  if String.eqb option "callers" && suppress_callers then false
  else py_in option options.

(** Decide whether to output debug information in category [option]. *)
Definition should (self : DebugControl) (option : string) : bool :=
  should_on (options self) (suppress_callers self) option.

(** [DebugControl(options, output, file_name)] *)
Definition DebugControl_init (options : list string) (output : option IO)
    (file_name : option string) : M DebugControl :=
  forced <- gets FORCED_DEBUG ;;
  let options := options ++ forced in
  let suppress_callers := false in
  let filters := [] in
  let filters :=
    if should_on options suppress_callers "pid"
    then filters ++ [F_add_pid_and_tid] else filters in
  output <- get_one output file_name
              (should_on options suppress_callers "process") filters false ;;
  ret {| options := options; suppress_callers := suppress_callers;
         output := output; raw_output := outfile output |}.

Definition set_suppress_callers (b : bool) (self : DebugControl)
    : DebugControl :=
  {| options := options self; suppress_callers := b;
     output := output self; raw_output := raw_output self |}.

(** A block run under [with self.without_callers():]; it can do anything
    to the object and to the world, and return or raise. *)
Definition Block (A : Type) : Type :=
  DebugControl -> World -> Outcome A * DebugControl * World.

(** A context manager to prevent call stacks from being logged. *)
Definition without_callers {A} (self : DebugControl) (block : Block A)
    (w : World) : Outcome A * DebugControl * World :=
  let old := suppress_callers self in
  let self := set_suppress_callers true self in
  (* try: yield, finally: *)
  let '(r, self, w) := block self w in
  (r, set_suppress_callers old self, w).

(** Write a line of debug output. *)
Definition write (self : DebugControl) (msg : string) : M unit :=
  DebugOutputFile_write (output self) (msg +:+ nl) ;;;
  (if should self "self" then
     stack <- inspect_stack "write" 93 ;;
     match nth_error stack 1 with
     | None => raise IndexError
     | Some caller =>
         match f_self caller with
         | Some caller_self =>
             DebugOutputFile_write (output self)
               ("self: " +:+ caller_self +:+ nl)
         | None => ret tt
         end
     end
   else ret tt) ;;;
  (if should self "callers" then
     calling "write" 97
       (dump_stack_frames None (Some (W_DebugOutputFile (output self))) 1)
   else ret tt) ;;;
  DebugOutputFile_flush (output self).

(** *** class DebugControlString *)

(** [DebugControlString(options)] *)
Definition DebugControlString_init (options : list string) : M DebugControl :=
  buffer <- new_oid ;;
  DebugControl_init options (Some (StringIO buffer)) None.

(** Get the output text from the [DebugControl]. *)
Definition get_output (self : DebugControl) : M string :=
  match raw_output self with
  | Some f => gets (content f)
  | None => raise AttributeError
  end.

(** *** class NoDebugging *)

(** Should we write debug messages?  Never. *)
Definition NoDebugging_should (option : string) : bool := false.

(** This will never be called. *)
Definition NoDebugging_write (msg : string) : M unit :=
  raise (AssertionError "NoDebugging.write should never be called.").

(** The two classes behind the methods [should] and [write]. *)
Inductive Debug : Type :=
| IsDebugControl (self : DebugControl)
| IsNoDebugging.

Definition Debug_should (d : Debug) (option : string) : bool :=
  match d with
  | IsDebugControl self => should self option
  | IsNoDebugging => NoDebugging_should option
  end.

Definition Debug_write (d : Debug) (msg : string) : M unit :=
  match d with
  | IsDebugControl self => write self msg
  | IsNoDebugging => NoDebugging_write msg
  end.

(** ** Regular expressions, to state what the output looks like *)

Module Regex.

Inductive regex : Type :=
| Empty
| Eps
| Chr (p : ascii -> bool)
| Cat (r1 r2 : regex)
| Alt (r1 r2 : regex)
| Star (r : regex).

Fixpoint nullable (r : regex) : bool :=
  match r with
  | Empty => false
  | Eps => true
  | Chr _ => false
  | Cat r1 r2 => nullable r1 && nullable r2
  | Alt r1 r2 => nullable r1 || nullable r2
  | Star _ => true
  end.

(** The derivative of [r] by the character [c]. *)
Fixpoint deriv (c : ascii) (r : regex) : regex :=
  match r with
  | Empty => Empty
  | Eps => Empty
  | Chr p => if p c then Eps else Empty
  | Cat r1 r2 =>
      if nullable r1 then Alt (Cat (deriv c r1) r2) (deriv c r2)
      else Cat (deriv c r1) r2
  | Alt r1 r2 => Alt (deriv c r1) (deriv c r2)
  | Star r1 => Cat (deriv c r1) (Star r1)
  end.

(** [re.fullmatch(r, s) is not None] *)
Fixpoint matches (r : regex) (s : string) : bool :=
  match s with
  | EmptyString => nullable r
  | String c s' => matches (deriv c r) s'
  end.

Fixpoint lit (s : string) : regex :=
  match s with
  | EmptyString => Eps
  | String c s' => Cat (Chr (Ascii.eqb c)) (lit s')
  end.

Definition plus (r : regex) : regex := Cat r (Star r).

(** [\d] *)
Definition digit (c : ascii) : bool :=
  (48 <=? N_of_ascii c)%N && (N_of_ascii c <=? 57)%N.

(** [[0-9a-f]] *)
Definition lower_hex (c : ascii) : bool :=
  digit c || (97 <=? N_of_ascii c)%N && (N_of_ascii c <=? 102)%N.

(** [$]: the end of the string, or just before a newline that ends it. *)
Definition dollar : regex := Alt Eps (lit PyStr.nl).

(** [^\d+\.[0-9a-f]{4}: hello\n$] *)
Definition pid_line : regex :=
  Cat (plus (Chr digit))
    (Cat (lit ".")
       (Cat (Chr lower_hex) (Cat (Chr lower_hex)
          (Cat (Chr lower_hex) (Cat (Chr lower_hex)
             (Cat (lit (": hello" +:+ PyStr.nl)) dollar)))))).

(** [^ *\d+\.[0-9a-f]{4}: hello\n$] *)
Definition padded_pid_line : regex := Cat (Star (Chr (Ascii.eqb " "))) pid_line.

End Regex.

(** The files opened so far, oldest first. *)
Definition opened (w : World) : list string :=
  flat_map (fun e => match e with EvOpen name => [name] | _ => [] end)
    (events w).

(** *** Where the output goes, as the specification words it *)






(** What a computation that neither opens a file nor touches [sys.modules]
    leaves as it was; object identities are only ever added. *)
Definition quiet (w w' : World) : Prop :=
  sys_modules w' = sys_modules w
  /\ opened w' = opened w
  /\ next_oid w <= next_oid w'.

(** [m], run in [w], returns a value and a world that satisfy [Q]. *)
Definition returns {A} (m : M A) (w : World) (Q : A -> World -> Prop) : Prop :=
  match m w with
  | (Ok a, w') => Q a w'
  | (Raise _, _) => False
  end.

(** Every character of [s] satisfies [p]. *)
Fixpoint all_chars (p : ascii -> bool) (s : string) : bool :=
  match s with
  | EmptyString => true
  | String c s' => p c && all_chars p s'
  end.

(** [f"{n:04x}"] is four characters among [0-9a-f]. *)
Definition four_lower_hex (n : N) : bool :=
  match format_0x 4 (Z.of_N n) with
  | String a (String b (String c (String d EmptyString))) =>
      Regex.lower_hex a && Regex.lower_hex b
      && Regex.lower_hex c && Regex.lower_hex d
  | _ => false
  end.

(** The [count] numbers from [from] on. *)
Fixpoint N_range (count : nat) (from : N) : list N :=
  match count with
  | O => []
  | S count' => from :: N_range count' (N.succ from)
  end.

(** What a test does with a [DebugControlString]: make one with the
    options, write one message, and get the output. *)
Definition DebugControlString_session (options : list string) (msg : string)
    : M string :=
  debug <- DebugControlString_init options ;;
  write debug msg ;;;
  get_output debug.

(** The text one [write] of [hello] sends through the pid filter. *)
Definition hello_line (w : World) : string :=
  format_d 5 (Z.of_N (os_getpid w)) +:+ "."
  +:+ format_0x 4 (short_id (thread_get_ident w)) +:+ ": hello" +:+ nl.

(** [s] has no line boundary. *)
Definition no_linebreak (s : string) : bool :=
  all_chars (fun c => negb (is_linebreak c)) s.

(** [s] ends with a character that [rstrip] keeps. *)
Fixpoint ends_visible (s : string) : bool :=
  match s with
  | EmptyString => false
  | String c EmptyString => negb (is_space c)
  | String _ s' => ends_visible s'
  end.

(** *** The banner of a sink that shows the process *)

Definition banner_executable (w : World) : string :=
  "New process: executable: " +:+ repr (sys_executable w).

Definition banner_cmd (w : World) : string :=
  "New process: cmd: " +:+ repr_argv (sys_argv w).

Definition banner_pid (w : World) (ppid : N) : string :=
  "New process: pid: " +:+ format_d 0 (Z.of_N (os_getpid w))
  +:+ ", parent pid: " +:+ format_d 0 (Z.of_N ppid).

Definition cwd_line (w : World) : string :=
  "cwd is now " +:+ repr (os_getcwd w).

(** What the construction of a sink around [f] does to [f] when
    [show_process] is true and there is no other filter. *)
Definition banner_events (f : IO) (w : World) : list Event :=
  [EvWrite f (cwd_line w +:+ nl +:+ banner_executable w +:+ nl); EvFlush f;
   EvWrite f (banner_cmd w +:+ nl); EvFlush f]
  ++ match os_getppid w with
     | Some ppid => [EvWrite f (banner_pid w ppid +:+ nl); EvFlush f]
     | None => []
     end.

(** The lines of [text] that start with [New process: ]. *)
Definition new_process_lines (text : string) : list string :=
  filter (fun line => String.prefix "New process: " line) (splitlines text).

(** What the construction of a sink leaves of the process as it was. *)
Definition same_process (w w' : World) : Prop :=
  os_getpid w' = os_getpid w /\ os_getppid w' = os_getppid w
  /\ os_getcwd w' = os_getcwd w /\ sys_executable w' = sys_executable w
  /\ sys_argv w' = sys_argv w.

(** What a filter leaves as it was: all but the trackers. *)
Definition silent (w w' : World) : Prop :=
  events w' = events w /\ sys_modules w' = sys_modules w
  /\ next_oid w' = next_oid w /\ same_process w w'.

(** No write so far went to a buffer that does not exist yet. *)
Definition buffers_allocated (w : World) : Prop :=
  forall i text, In (EvWrite (StringIO i) text) (events w) -> i < next_oid w.

(** ** The stack summary as the specification words it *)

(** [<function name> : <file path>@<line number>] *)
Definition claimed_frame_line (t : FrameInfo) : string :=
  function t +:+ " : " +:+ filename t +:+ "@" +:+ format_d 0 (lineno t).

(** One line per frame, the direct caller first, without the nearest [skip]
    frames, at most [limit] of them. [stack] is what [inspect.stack()]
    returns in [short_stack], so that the direct caller is its entry 1. *)
Definition claimed_short_stack (stack : list FrameInfo) (limit : option nat)
    (skip : nat) : string :=
  let callers := skipn (S skip) stack in
  let callers := match limit with
                 | Some n => firstn n callers
                 | None => callers
                 end in
  join nl (map claimed_frame_line callers).

(** ** Worlds to run the module in *)

Definition caller_frames : list FrameInfo :=
  [ {| function := "f"; filename := "/m.py"; lineno := 7; f_self := None |};
    {| function := "<module>"; filename := "/r.py"; lineno := 1;
       f_self := None |} ].

(** A process with pid 42 started as [prog -x] in [/home/u], with no debug
    sink yet; the parent process, the environment and the forced options
    are left open. *)
Definition world_with (getppid : option N) (environ : gmap string string)
    (forced : list string) (forced_file : option string) : World :=
  {| os_getpid := 42; os_getppid := getppid;
     thread_get_ident := 140234567890123;
     os_getcwd := "/home/u"; sys_executable := "/usr/bin/python3";
     sys_argv := Some ["prog"; "-x"];
     os_environ := environ; can_append := fun _ => true;
     FORCED_DEBUG := forced; FORCED_DEBUG_FILE := forced_file;
     sys_modules := ∅; call_stack := caller_frames;
     debug_py := "/coverage/debug.py"; next_oid := 0;
     tracker_cwd := fun _ => None; events := [] |}.

(** Nothing in the environment, nothing forced. *)
Definition a_world : World := world_with (Some 7%N) ∅ [] None.

(** The same process on a platform whose [os] has no [getppid]. *)
Definition a_world_without_getppid : World := world_with None ∅ [] None.

(** The same process with [callers] forced, [COVERAGE_DEBUG_FILE=stdout]
    and a forced debug file. *)
Definition a_world_configured : World :=
  world_with (Some 7%N) {["COVERAGE_DEBUG_FILE" := "stdout"]} ["callers"]
    (Some "/tmp/forced.txt").

(** ** More of the module [coverage.debug] *)


(** [s.ljust(width, fill)], the padding of [{:-<60s}]. *)
Definition ljust (width : nat) (fill : ascii) (s : string) : string :=
  s +:+ repeat_char fill (width - String.length s).

(** Make a nice header string. *)
Definition info_header (label : string) : string :=
  "--" +:+ ljust 60 "-" (" " +:+ label +:+ " ").

(** The data of one [(label, data)] pair, as far as [info_formatter] looks
    at it: a list, a set or a tuple, each with the [str] of its elements in
    iteration order (a tuple also with its [repr]), or any other value with
    its [str]. *)
Inductive InfoData : Type :=
| D_list (items : list string)
| D_set (items : list string)
| D_tuple (items : list string) (repr_tuple : string)
| D_value (str_data : string).

Definition label_len : nat := 30.

(** The lines [info_formatter] yields for one pair. *)
Definition info_lines (label : string) (data : InfoData) : list string :=
  let data := match data with
              | D_list [] => D_value "-none-"
              | _ => data
              end in
  let elements (items : list string) : list string :=
    (* prefix = "%*s:" % (label_len, label), then "" *)
    match items with
    | [] => []
    | e :: items' =>
        (rjust (label_len + 1) " " (rjust label_len " " label +:+ ":")
         +:+ " " +:+ e)
        :: map (fun e => rjust (label_len + 1) " " EmptyString +:+ " " +:+ e)
             items'
    end in
  match data with
  | D_tuple items repr_tuple =>
      if Nat.ltb (String.length repr_tuple) 30
      then [rjust label_len " " label +:+ ": " +:+ repr_tuple]
      else elements items
  | D_list items => elements items
  | D_set items => elements items
  | D_value str_data => [rjust label_len " " label +:+ ": " +:+ str_data]
  end.

(** Produce a sequence of formatted lines from info: the lines the
    generator yields, or the exception its first [next] raises. *)
Definition info_formatter (info : list (string * InfoData))
    : Outcome (list string) :=
  match info with
  | [] => Ok []
  | _ =>
      if forallb (fun '(l, _) => Nat.ltb (String.length l) label_len) info
      then Ok (flat_map (fun '(label, data) => info_lines label data) info)
      else Raise (AssertionError EmptyString)
  end.

(** Write a sequence of (label,data) pairs nicely. *)
Definition write_formatted_info (write : string -> M unit) (header : string)
    (info : list (string * InfoData)) : M unit :=
  write (info_header header) ;;;
  match info_formatter info with
  | Ok lines => foldM (fun _ line => write (" " +:+ line)) lines tt
  | Raise e => raise e
  end.


(** [sub in s] for two strings *)
Fixpoint str_in (sub s : string) : bool :=
  String.prefix sub s
  || match s with
     | EmptyString => false
     | String _ s' => str_in sub s'
     end.

(** [\w] on the code points below 256: what [str.isalnum] accepts, and the
    underscore. *)
Definition is_word (c : ascii) : bool :=
  let n := code c in
  ((48 <=? n) && (n <=? 57) || (65 <=? n) && (n <=? 90) || (n =? 95)
   || (97 <=? n) && (n <=? 122)
   || (n =? 170) || (n =? 178) || (n =? 179) || (n =? 181)
   || (185 <=? n) && (n <=? 186) || (188 <=? n) && (n <=? 190)
   || (192 <=? n) && (n <=? 214) || (216 <=? n) && (n <=? 246)
   || (248 <=? n))%N.

(** [re.sub(r"\w", "*", val)] *)
Fixpoint cloak_value (val : string) : string :=
  match val with
  | EmptyString => EmptyString
  | String c val' => String (if is_word c then "*"%char else c) (cloak_value val')
  end.

Definition slugs : list string := ["COV"; "PY"].
Definition include : list string := ["HOME"; "TEMP"; "TMP"].
Definition cloak : list string :=
  ["API"; "TOKEN"; "KEY"; "SECRET"; "PASS"; "SIGNATURE"].

(** Whether [relevant_environment_display] keeps the variable [name]. *)
Definition keep (name : string) : bool :=
  if py_in name include then true
  else if existsb (fun slug => str_in slug name) slugs then true
  else false.

(** The list [to_show] that [relevant_environment_display] builds from the
    items of [env], before it sorts them. *)
Fixpoint to_show (env : list (string * string)) : list (string * string) :=
  match env with
  | [] => []
  | (name, val) :: env' =>
      if keep name then
        (name,
         if existsb (fun slug => str_in slug name) cloak
         then cloak_value val else val) :: to_show env'
      else to_show env'
  end.

(** Filter environment variables for a debug display. [env] is
    [env.items()]; [human_sorted_items] is the function of [coverage.misc]
    of that name. *)
Definition relevant_environment_display
    (human_sorted_items : list (string * string) -> list (string * string))
    (env : list (string * string)) : list (string * string) :=
  human_sorted_items (to_show env).

(** An order to sort the items with: by name, as [String.leb] compares. *)
Fixpoint insert_item (x : string * string) (l : list (string * string))
    : list (string * string) :=
  match l with
  | [] => [x]
  | y :: l' => if String.leb (fst x) (fst y) then x :: l else y :: insert_item x l'
  end.

Definition sort_items (l : list (string * string)) : list (string * string) :=
  fold_right insert_item [] l.

(** What [add_pid_and_tid] puts before a text. *)
Definition pid_prefix (w : World) : string :=
  format_d 5 (Z.of_N (os_getpid w)) +:+ "."
  +:+ format_0x 4 (short_id (thread_get_ident w)) +:+ ": ".

(** [debug.write(msg)] for each of [msgs], in order. *)
Definition write_all (debug : DebugControl) (msgs : list string) : M unit :=
  foldM (fun _ msg => write debug msg) msgs tt.

(** The process of [a_world] where no file can be opened for appending. *)
Definition a_world_read_only : World :=
  {| os_getpid := 42; os_getppid := Some 7%N;
     thread_get_ident := 140234567890123;
     os_getcwd := "/home/u"; sys_executable := "/usr/bin/python3";
     sys_argv := Some ["prog"; "-x"];
     os_environ := ∅; can_append := fun _ => false;
     FORCED_DEBUG := []; FORCED_DEBUG_FILE := None;
     sys_modules := ∅; call_stack := caller_frames;
     debug_py := "/coverage/debug.py"; next_oid := 0;
     tracker_cwd := fun _ => None; events := [] |}.

(** A test session: make a [DebugControlString], write the messages, get
    the output. *)
Definition DebugControlString_messages (options msgs : list string)
    : M string :=
  debug <- DebugControlString_init options ;;
  write_all debug msgs ;;;
  get_output debug.

(** The block [self.write(msg)] of a [with self.without_callers():]. *)
Definition write_block (msg : string) : Block unit :=
  fun self w => let '(r, w') := write self msg w in (r, self, w').


(** ** Properties *)

(** *** Strings *)

Section StringFacts.

Lemma append_nil (t : string) : EmptyString +:+ t = t.
Proof. reflexivity. Qed.

Lemma append_cons (c : ascii) (s t : string) :
  String c s +:+ t = String c (s +:+ t).
Proof. reflexivity. Qed.

Lemma append_empty_r (s : string) : s +:+ EmptyString = s.
Proof.
  induction s as [|c s IH]; [reflexivity|].
  now rewrite append_cons, IH.
Qed.

Lemma append_assoc (a b c : string) : (a +:+ b) +:+ c = a +:+ (b +:+ c).
Proof.
  induction a as [|x a IH]; [reflexivity|].
  now rewrite !append_cons, IH.
Qed.

Lemma length_append (a b : string) :
  String.length (a +:+ b) = String.length a + String.length b.
Proof.
  induction a as [|x a IH]; [reflexivity|].
  rewrite append_cons. cbn [String.length]. now rewrite IH.
Qed.

(** What [rstrip] removes is a suffix: the text is the stripped text
    followed by the text from the stripped text's length on. *)
Lemma rstrip_drop (s : string) :
  rstrip s +:+ drop (String.length (rstrip s)) s = s.
Proof.
  induction s as [|c s IH]; [reflexivity|].
  cbn [rstrip].
  destruct (is_space c && is_empty (rstrip s)); [reflexivity|].
  cbn [String.length drop]. now rewrite append_cons, IH.
Qed.

End StringFacts.

(** *** The monad *)

Lemma bind_ok {A B} (m : M A) (k : A -> M B) (w w' : World) (a : A) :
  m w = (Ok a, w') -> bind m k w = k a w'.
Proof. intros H. unfold bind. now rewrite H. Qed.

Lemma bind_raise {A B} (m : M A) (k : A -> M B) (w w' : World) (e : Exn) :
  m w = (Raise e, w') -> bind m k w = (Raise e, w').
Proof. intros H. unfold bind. now rewrite H. Qed.

(** *** [filter_text] *)

(** C8: with an empty list of filters, [filter_text] returns its input text
    unchanged, trailing whitespace included, and touches nothing. *)
Theorem filter_text_no_filters (text : string) (w : World) :
  filter_text text [] w = (Ok text, w).
Proof.
  unfold filter_text. cbn [foldM].
  unfold bind, ret. now rewrite rstrip_drop.
Qed.

(** *** class NoDebugging *)

(** C9: on the null controller [should] is false for every option, and
    [write] raises an [AssertionError] for every message, with nothing
    written anywhere. *)
Theorem NoDebugging_never (option msg : string) (w : World) :
  Debug_should IsNoDebugging option = false
  /\ exists reason,
      Debug_write IsNoDebugging msg w = (Raise (AssertionError reason), w).
Proof.
  split; [reflexivity|].
  eexists. reflexivity.
Qed.

(** *** class CwdTracker *)

Lemma append_longer (a b : string) :
  a <> EmptyString -> a +:+ b <> b.
Proof.
  intros Ha E. apply (f_equal String.length) in E.
  rewrite length_append in E.
  destruct a; [congruence|]. cbn [String.length] in E. lia.
Qed.

(** C10: a new [CwdTracker] has no directory yet, so its first [filter]
    call, whatever the working directory, puts the [cwd is now] line before
    the text and records the directory; the next call in the same directory
    returns its text unchanged. *)
Theorem CwdTracker_first_call (getcwd text : string) :
  cwd CwdTracker_init = None
  /\ let '(out, self) := CwdTracker_filter CwdTracker_init getcwd text in
     out = "cwd is now " +:+ repr getcwd +:+ nl +:+ text
     /\ out <> text
     /\ cwd self = Some getcwd
     /\ forall text', CwdTracker_filter self getcwd text' = (text', self).
Proof.
  split; [reflexivity|].
  unfold CwdTracker_filter, CwdTracker_init. cbn [cwd].
  rewrite bool_decide_eq_true_2 by discriminate.
  repeat split.
  - rewrite <- !append_assoc. apply append_longer.
    rewrite !append_assoc. discriminate.
  - intros text'. cbn [cwd].
    rewrite bool_decide_eq_false_2; [reflexivity|]. intros H. now apply H.
Qed.

(** *** class DebugControl *)

Lemma py_in_In (c : string) (l : list string) : py_in c l = true <-> In c l.
Proof.
  unfold py_in. rewrite existsb_exists. split.
  - intros (x & Hx & E). apply String.eqb_eq in E. now subst.
  - intros H. exists c. split; [assumption | apply String.eqb_refl].
Qed.

Lemma should_on_spec (opts : list string) (suppress : bool) (c : string) :
  should_on opts suppress c = true
  <-> In c opts /\ ~ (c = "callers" /\ suppress = true).
Proof.
  unfold should_on.
  destruct (String.eqb_spec c "callers") as [E|E]; destruct suppress; cbn [andb].
  - split; [discriminate | intros [_ H]; exfalso; now apply H].
  - rewrite py_in_In. split; [intros H; split; [assumption|] | tauto].
    intros [_ H']. discriminate.
  - rewrite py_in_In. split; [intros H; split; [assumption|] | tauto]. tauto.
  - rewrite py_in_In. split; [intros H; split; [assumption|] | tauto]. tauto.
Qed.

(** What [__init__] leaves in the two attributes [should] reads. *)
Lemma DebugControl_init_attributes (opts : list string) (out : option IO)
    (fn : option string) (w w' : World) (self : DebugControl) :
  DebugControl_init opts out fn w = (Ok self, w') ->
  options self = opts ++ FORCED_DEBUG w /\ suppress_callers self = false.
Proof.
  unfold DebugControl_init, bind, gets, ret. intros H.
  destruct (get_one _ _ _ _ _ w) as [[o|e] w1]; inversion H; subst.
  split; reflexivity.
Qed.

(** C1: for a controller made from the options [opts], [should c] is true
    exactly when [c] is among [opts] and the forced options, except that
    [should "callers"] is false while the suppression flag is set; a name
    that is not in the list gives false. *)
Theorem should_iff_enabled (opts : list string) (out : option IO)
    (fn : option string) (w w' : World) (self : DebugControl) :
  DebugControl_init opts out fn w = (Ok self, w') ->
  forall (suppress : bool) (c : string),
    should (set_suppress_callers suppress self) c = true
    <-> In c (opts ++ FORCED_DEBUG w) /\ ~ (c = "callers" /\ suppress = true).
Proof.
  intros H suppress c.
  destruct (DebugControl_init_attributes _ _ _ _ _ _ H) as [Ho _].
  unfold should, set_suppress_callers. cbn [options suppress_callers].
  rewrite Ho. apply should_on_spec.
Qed.

(** C3: [without_callers] runs its block with the suppression flag set, so
    that [should "callers"] is false in it, and when the block is left,
    whether it returned or raised, the flag has the value it had before; the
    block's result or exception is passed on. *)
Theorem without_callers_restores {A} (self : DebugControl) (block : Block A)
    (w : World) :
  let inside := set_suppress_callers true self in
  suppress_callers inside = true
  /\ should inside "callers" = false
  /\ let '(r, after, w') := block inside w in
     let '(r', self', w'') := without_callers self block w in
     r' = r /\ w'' = w'
     /\ suppress_callers self' = suppress_callers self
     /\ options self' = options after
     /\ output self' = output after.
Proof.
  cbn zeta. split; [reflexivity|]. split; [reflexivity|].
  unfold without_callers.
  destruct (block (set_suppress_callers true self) w) as [[r after] w'].
  repeat split; reflexivity.
Qed.

(** *** The process-wide singleton *)

Lemma _get_singleton_data_pure (w : World) :
  _get_singleton_data w = (Ok (singleton_of w), w).
Proof. reflexivity. Qed.

Lemma singleton_after_set (the_one : DebugOutputFile) (interim : bool)
    (w w' : World) (u : unit) :
  _set_singleton_data the_one interim w = (Ok u, w') ->
  singleton_of w' = (Some the_one, interim).
Proof.
  unfold _set_singleton_data, modify. intros H. inversion H; subst.
  unfold singleton_of, _get_singleton_data, gets.
  cbn [sys_modules set_sys_modules].
  now rewrite lookup_insert_eq.
Qed.

(** A lookup that finds a sink that is not interim returns it and does
    nothing else. *)
Lemma get_one_locked_in (the_one : DebugOutputFile) (file_name : option string)
    (show_process : bool) (filters : list Filter) (interim : bool)
    (w : World) :
  singleton_of w = (Some the_one, false) ->
  get_one None file_name show_process filters interim w = (Ok the_one, w).
Proof.
  intros H. unfold get_one.
  rewrite (bind_ok _ _ _ _ _ (_get_singleton_data_pure w)).
  now rewrite H.
Qed.

(** After a lookup with [interim] false has returned, the singleton is the
    sink it returned, and it is locked in. *)
Lemma get_one_sets_singleton (file_name : option string)
    (show_process : bool) (filters : list Filter)
    (w w' : World) (the_one : DebugOutputFile) :
  get_one None file_name show_process filters false w = (Ok the_one, w') ->
  singleton_of w' = (Some the_one, false).
Proof.
  unfold get_one.
  rewrite (bind_ok _ _ _ _ _ (_get_singleton_data_pure w)).
  destruct (singleton_of w) as [[o|] [|]] eqn:E.
  2: { intros H. inversion H; subst. exact E. }
  all: match goal with |- context [bind ?m _ ?w0] =>
      destruct (m w0) as [[f|e] w1] eqn:Ef end;
    [rewrite (bind_ok _ _ _ _ _ Ef) | rewrite (bind_raise _ _ _ _ _ Ef); discriminate];
    unfold bind at 1;
    destruct (DebugOutputFile_init (Some f) show_process filters w1)
      as [[o'|e] w2]; [|discriminate];
    unfold bind at 1;
    destruct (_set_singleton_data o' false w2) as [[u|e] w3] eqn:Es;
      [|discriminate];
    unfold ret; intros H; inversion H; subst;
    exact (singleton_after_set _ _ _ _ _ Es).
Qed.

(** C2: when the singleton lookup, with no stream given and [interim]
    false, has returned a sink, a second such lookup returns that very sink
    (the same object, [oid] included) and changes nothing: no sink is
    constructed, nothing is opened or written, and the singleton read from
    [sys.modules] is still that one sink. *)
Theorem get_one_twice_same_instance
    (file_name1 file_name2 : option string) (show_process1 show_process2 : bool)
    (filters1 filters2 : list Filter) (w w1 : World) (first : DebugOutputFile) :
  get_one None file_name1 show_process1 filters1 false w = (Ok first, w1) ->
  get_one None file_name2 show_process2 filters2 false w1 = (Ok first, w1)
  /\ singleton_of w1 = (Some first, false).
Proof.
  intros H. apply get_one_sets_singleton in H.
  split; [now apply get_one_locked_in | exact H].
Qed.

(** *** Computations that return *)

Lemma returns_ret {A} (a : A) (w : World) (Q : A -> World -> Prop) :
  Q a w -> returns (ret a) w Q.
Proof. intros H. exact H. Qed.

Lemma returns_gets {A} (f : World -> A) (w : World)
    (Q : A -> World -> Prop) :
  Q (f w) w -> returns (gets f) w Q.
Proof. intros H. exact H. Qed.

Lemma returns_modify (f : World -> World) (w : World)
    (Q : unit -> World -> Prop) :
  Q tt (f w) -> returns (modify f) w Q.
Proof. intros H. exact H. Qed.

Lemma returns_bind {A B} (m : M A) (k : A -> M B) (w : World)
    (Q : B -> World -> Prop) :
  returns m w (fun a w' => returns (k a) w' Q) -> returns (bind m k) w Q.
Proof.
  unfold returns, bind. destruct (m w) as [[a|e] w']; [|intros []].
  intros H. exact H.
Qed.

Lemma returns_weaken {A} (m : M A) (w : World) (P Q : A -> World -> Prop) :
  returns m w P -> (forall a w', P a w' -> Q a w') -> returns m w Q.
Proof.
  unfold returns. destruct (m w) as [[a|e] w']; [|intros []].
  intros H HPQ. now apply HPQ.
Qed.

Lemma returns_inv {A} (m : M A) (w : World) (Q : A -> World -> Prop) :
  returns m w Q -> exists a w', m w = (Ok a, w') /\ Q a w'.
Proof.
  unfold returns. destruct (m w) as [[a|e] w']; [|intros []].
  intros H. now exists a, w'.
Qed.

Lemma quiet_refl (w : World) : quiet w w.
Proof. repeat split; reflexivity. Qed.

Lemma quiet_trans (w1 w2 w3 : World) : quiet w1 w2 -> quiet w2 w3 -> quiet w1 w3.
Proof.
  intros (A1 & B1 & C1) (A2 & B2 & C2).
  repeat split; [congruence | congruence | lia].
Qed.

Lemma opened_snoc (w : World) (e : Event) :
  opened (set_events (events w ++ [e]) w)
  = opened w ++ match e with EvOpen name => [name] | _ => [] end.
Proof.
  unfold opened. cbn [events set_events].
  rewrite flat_map_app. cbn [flat_map]. now rewrite app_nil_r.
Qed.

Lemma emit_quiet (e : Event) (w : World) :
  (forall name, e <> EvOpen name) ->
  returns (emit e) w (fun _ w' => quiet w w').
Proof.
  intros He. unfold emit. apply returns_modify.
  repeat split; [|reflexivity].
  rewrite opened_snoc. destruct e; [now elim (He name)| |]; apply app_nil_r.
Qed.

Lemma same_process_refl (w : World) : same_process w w.
Proof. repeat split. Qed.

Lemma same_process_trans (w1 w2 w3 : World) :
  same_process w1 w2 -> same_process w2 w3 -> same_process w1 w3.
Proof.
  intros (A1 & B1 & C1 & D1 & E1) (A2 & B2 & C2 & D2 & E2).
  repeat split; congruence.
Qed.

(** The filters change nothing but the trackers. *)
Lemma silent_refl (w : World) : silent w w.
Proof. repeat split. Qed.

Lemma silent_trans (w1 w2 w3 : World) : silent w1 w2 -> silent w2 w3 -> silent w1 w3.
Proof.
  intros (A1 & B1 & C1 & D1) (A2 & B2 & C2 & D2).
  split; [congruence|]. split; [congruence|]. split; [congruence|].
  exact (same_process_trans _ _ _ D1 D2).
Qed.

Lemma silent_quiet (w w' : World) : silent w w' -> quiet w w'.
Proof.
  intros (He & Hm & Hn & _). unfold quiet, opened.
  rewrite He, Hm, Hn. repeat split. lia.
Qed.

Lemma call_filter_silent (fn : Filter) (line : string) (w : World) :
  returns (call_filter fn line) w (fun _ w' => silent w w').
Proof.
  destruct fn as [|t|f]; cbn [call_filter].
  - unfold add_pid_and_tid.
    apply returns_bind, returns_gets, returns_bind, returns_gets, returns_ret.
    apply silent_refl.
  - unfold returns, run_CwdTracker_filter.
    destruct (CwdTracker_filter _ _ _) as [text' self'].
    repeat split; reflexivity.
  - apply returns_ret, silent_refl.
Qed.

Section FoldM.

Context {A B : Type} (f : A -> B -> M A) (R : World -> World -> Prop).
Hypothesis R_refl : forall w, R w w.
Hypothesis R_trans : forall w1 w2 w3, R w1 w2 -> R w2 w3 -> R w1 w3.
Hypothesis f_R : forall a b w, returns (f a b) w (fun _ w' => R w w').

(** A loop whose body returns and keeps to [R] returns and keeps to [R]. *)
Lemma foldM_keeps (l : list B) (a : A) (w : World) :
  returns (foldM f l a) w (fun _ w' => R w w').
Proof.
  revert a w. induction l as [|b l IH]; intros a w; cbn [foldM].
  - apply returns_ret, R_refl.
  - apply returns_bind.
    apply (returns_weaken _ _ _ _ (f_R a b w)). intros a' w1 H1.
    apply (returns_weaken _ _ _ _ (IH a' w1)). intros a'' w2 H2.
    exact (R_trans _ _ _ H1 H2).
Qed.

End FoldM.

Lemma filter_text_silent (text : string) (filters : list Filter) (w : World) :
  returns (filter_text text filters) w (fun _ w' => silent w w').
Proof.
  unfold filter_text. apply returns_bind.
  eapply returns_weaken.
  - apply (foldM_keeps _ silent silent_refl silent_trans).
    intros a fn w0. apply returns_bind.
    eapply returns_weaken.
    + apply (foldM_keeps _ silent silent_refl silent_trans).
      intros lines line w1. apply returns_bind.
      apply (returns_weaken _ _ _ _ (call_filter_silent fn line w1)).
      intros r w2 H2. apply returns_ret. exact H2.
    + intros lines w1 H1. apply returns_ret. exact H1.
  - intros t w1 H1. apply returns_ret. exact H1.
Qed.

Lemma filter_text_quiet (text : string) (filters : list Filter) (w : World) :
  returns (filter_text text filters) w (fun _ w' => quiet w w').
Proof.
  apply (returns_weaken _ _ _ _ (filter_text_silent text filters w)).
  intros _ w'. apply silent_quiet.
Qed.

(** One write to a sink that has a stream is one write to the stream,
    flushed, whatever the filters. *)
Lemma DebugOutputFile_write_events (self : DebugOutputFile) (f : IO)
    (text : string) (w : World) :
  outfile self = Some f ->
  exists filtered w',
    DebugOutputFile_write self text w = (Ok tt, w')
    /\ events w' = events w ++ [EvWrite f filtered; EvFlush f]
    /\ same_process w w'.
Proof.
  intros Hf. unfold DebugOutputFile_write. rewrite Hf.
  destruct (returns_inv _ _ _ (filter_text_silent text (filters self) w))
    as (filtered & w1 & Hft & He & _ & _ & Hp).
  rewrite (bind_ok _ _ _ _ _ Hft).
  exists filtered. eexists. split; [reflexivity|].
  cbn [events set_events]. rewrite He, <- app_assoc. split; [reflexivity|].
  apply Hp.
Qed.

(** Writing to a sink that has a stream returns; it opens nothing and
    leaves [sys.modules] alone. *)
Lemma DebugOutputFile_write_quiet (self : DebugOutputFile) (f : IO)
    (text : string) (w : World) :
  outfile self = Some f ->
  returns (DebugOutputFile_write self text) w (fun _ w' => quiet w w').
Proof.
  intros Hf. unfold DebugOutputFile_write. rewrite Hf.
  apply returns_bind.
  apply (returns_weaken _ _ _ _ (filter_text_quiet text (filters self) w)).
  intros t w1 H1. apply returns_bind.
  apply (returns_weaken _ _ _ _ (emit_quiet (EvWrite f t) w1 ltac:(discriminate))).
  intros _ w2 H2.
  apply (returns_weaken _ _ _ _ (emit_quiet (EvFlush f) w2 ltac:(discriminate))).
  intros _ w3 H3.
  exact (quiet_trans _ _ _ H1 (quiet_trans _ _ _ H2 H3)).
Qed.

Lemma new_oid_quiet (w : World) :
  returns new_oid w (fun n w' => n = next_oid w /\ quiet w w').
Proof.
  unfold returns, new_oid. split; [reflexivity|].
  repeat split; cbn [next_oid set_next_oid]; lia.
Qed.

Lemma new_CwdTracker_quiet (w : World) :
  returns new_CwdTracker w (fun _ w' => quiet w w').
Proof.
  unfold new_CwdTracker. apply returns_bind.
  apply (returns_weaken _ _ _ _ (new_oid_quiet w)). intros t w1 [_ H1].
  apply returns_bind, returns_modify, returns_ret.
  apply (quiet_trans _ _ _ H1). repeat split; reflexivity.
Qed.

Ltac step_write H :=
  apply returns_bind;
  eapply returns_weaken;
  [ eapply DebugOutputFile_write_quiet; reflexivity
  | intros ? ? H; cbv beta in H ].

(** Constructing a sink around a stream returns a sink with a new identity
    that holds the stream; the banner is written, nothing is opened and
    [sys.modules] is left alone. *)
Lemma DebugOutputFile_init_returns (f : IO) (show : bool)
    (fl : list Filter) (w : World) :
  returns (DebugOutputFile_init (Some f) show fl) w
    (fun self w' =>
       oid self = next_oid w /\ outfile self = Some f
       /\ show_process self = show /\ quiet w w').
Proof.
  unfold DebugOutputFile_init. apply returns_bind.
  apply (returns_weaken _ _ _ _ (new_oid_quiet w)). intros n w1 [-> H1].
  destruct show.
  - apply returns_bind.
    apply (returns_weaken _ _ _ _ (new_CwdTracker_quiet w1)). intros t w2 H2.
    apply returns_bind, returns_gets.
    step_write H3.
    apply returns_bind, returns_gets.
    step_write H4.
    apply returns_bind, returns_gets.
    destruct (os_getppid _) as [ppid|].
    + apply returns_bind. apply returns_bind, returns_gets.
      eapply returns_weaken;
        [eapply DebugOutputFile_write_quiet; reflexivity|].
      intros ? ? H5. cbv beta in H5. apply returns_ret.
      refine (conj eq_refl (conj eq_refl (conj eq_refl _))).
      eauto 10 using quiet_trans.
    + apply returns_bind, returns_ret, returns_ret.
      refine (conj eq_refl (conj eq_refl (conj eq_refl _))).
      eauto 10 using quiet_trans.
  - apply returns_ret.
    refine (conj eq_refl (conj eq_refl (conj eq_refl _))). exact H1.
Qed.

(** *** Where a new singleton writes to *)

Lemma open_append_returns (name : string) (w : World) :
  can_append w name = true ->
  returns (open_append name) w
    (fun f w' =>
       f = FileObj name /\ sys_modules w' = sys_modules w
       /\ opened w' = opened w ++ [name] /\ next_oid w' = next_oid w).
Proof.
  intros H. unfold open_append. apply returns_bind, returns_gets.
  rewrite H. unfold emit. apply returns_bind, returns_modify, returns_ret.
  rewrite opened_snoc. repeat split; reflexivity.
Qed.




(** *** [short_stack] *)

Section SliceRev.

Context {A : Type}.
Implicit Types (l : list A) (k m : Z).

Lemma adjust_index_nonneg l k :
  (0 <= k)%Z ->
  adjust_index (Z.of_nat (length l)) k
  = if (Z.of_nat (length l) <=? k)%Z then (Z.of_nat (length l) - 1)%Z else k.
Proof.
  intros Hk. unfold adjust_index.
  destruct (Z.ltb_spec k 0); [lia | reflexivity].
Qed.

(** [l[:k:-1]] for [0 <= k]: what is after position [k], backwards. *)
Lemma slice_rev_from_end l k :
  (0 <= k)%Z ->
  slice_rev l None (Some k) = rev (skipn (S (Z.to_nat k)) l).
Proof.
  intros Hk. unfold slice_rev. rewrite adjust_index_nonneg by assumption.
  f_equal.
  destruct (Z.leb_spec (Z.of_nat (length l)) k) as [Hle|Hlt].
  - rewrite (skipn_all2 (n := S (Z.to_nat k))) by lia.
    replace (Z.to_nat _) with 0 by lia. reflexivity.
  - replace (Z.to_nat (k + 1)) with (S (Z.to_nat k)) by lia.
    apply firstn_all2. rewrite length_skipn. lia.
Qed.

(** [l[m:k:-1]] for [0 <= k] and [0 <= m]: the positions from [m] down
    to [k + 1]. *)
Lemma slice_rev_between l m k :
  (0 <= k)%Z -> (0 <= m)%Z ->
  slice_rev l (Some m) (Some k)
  = rev (skipn (S (Z.to_nat k)) (firstn (S (Z.to_nat m)) l)).
Proof.
  intros Hk Hm.
  destruct (Z.leb_spec (Z.of_nat (length l)) m) as [Hle|Hlt].
  - rewrite (firstn_all2 (n := S (Z.to_nat m))) by lia.
    rewrite <- slice_rev_from_end by assumption.
    unfold slice_rev. rewrite (adjust_index_nonneg l m) by assumption.
    destruct (Z.leb_spec (Z.of_nat (length l)) m); [reflexivity | lia].
  - unfold slice_rev. rewrite !adjust_index_nonneg by assumption.
    destruct (Z.leb_spec (Z.of_nat (length l)) m); [lia|].
    f_equal.
    destruct (Z.leb_spec (Z.of_nat (length l)) k) as [Hle'|Hlt'].
    + rewrite (skipn_all2 (n := S (Z.to_nat k)) (firstn (S (Z.to_nat m)) l))
        by (rewrite length_firstn; lia).
      replace (Z.to_nat (m - _)) with 0 by lia. reflexivity.
    + replace (Z.to_nat (k + 1)) with (S (Z.to_nat k)) by lia.
      destruct (Z.le_gt_cases k m) as [Hkm|Hkm].
      * rewrite firstn_skipn_comm. do 2 f_equal. lia.
      * rewrite (skipn_all2 (n := S (Z.to_nat k)) (firstn (S (Z.to_nat m)) l))
          by (rewrite length_firstn; lia).
        replace (Z.to_nat (m - k)) with 0 by lia. reflexivity.
Qed.

End SliceRev.

(** C7, as amended: [short_stack limit skip] renders, one line per frame
    as [%30s : %s:%d] of the function name, the file path and the line
    number, the callers of [short_stack] without the nearest [skip] ones
    and, when [limit] is given, only up to the [limit]-th caller (so at most
    [limit - skip] frames); the outermost frame comes first and the nearest
    kept caller last. *)
Theorem short_stack_outermost_first (limit : option Z) (skip : Z) (w : World) :
  (0 <= skip)%Z ->
  (forall l, limit = Some l -> (0 <= l)%Z) ->
  let callers := match limit with
                 | Some l => firstn (Z.to_nat l) (call_stack w)
                 | None => call_stack w
                 end in
  let kept := skipn (Z.to_nat skip) callers in
  short_stack limit skip w = (Ok (join nl (map frame_line (rev kept))), w)
  /\ (forall l, limit = Some l -> length kept <= Z.to_nat l - Z.to_nat skip).
Proof.
  intros Hs Hl. cbn zeta. split.
  - unfold short_stack, inspect_stack, bind, gets, ret, short_stack_on.
    do 4 f_equal.
    destruct limit as [l|].
    + rewrite slice_rev_between by auto. reflexivity.
    + rewrite slice_rev_from_end by auto. reflexivity.
  - intros l ->. rewrite length_skipn, length_firstn. lia.
Qed.

(** C7, as stated, fails: called from [f], itself called from the module,
    [short_stack] puts the module's frame first and the direct caller [f]
    last, and writes [path:line], not [path@line]. *)
Lemma short_stack_direct_caller_last :
  fst (short_stack None 0 a_world)
  = Ok (join nl (map frame_line (rev caller_frames)))
  /\ fst (short_stack None 0 a_world)
     <> Ok (claimed_short_stack
              (own_frame "short_stack" 200 a_world :: caller_frames) None 0).
Proof.
  split; [reflexivity|].
  vm_compute. intros H. discriminate H.
Qed.

(** *** Regular expressions *)

Module RegexFacts.
Import Regex.

Lemma matches_Empty (s : string) : matches Empty s = false.
Proof. induction s as [|c s IH]; [reflexivity | exact IH]. Qed.

Lemma matches_Alt (a b : regex) (s : string) :
  matches (Alt a b) s = matches a s || matches b s.
Proof.
  revert a b. induction s as [|c s IH]; intros a b; [reflexivity|].
  cbn [matches deriv]. apply IH.
Qed.

Lemma matches_Cat_nil (a b : regex) (s : string) :
  nullable a = true -> matches b s = true -> matches (Cat a b) s = true.
Proof.
  intros Ha Hb. destruct s as [|c s]; cbn [matches deriv nullable] in *.
  - now rewrite Ha, Hb.
  - rewrite Ha, matches_Alt, Hb. apply orb_true_r.
Qed.

Lemma matches_Cat_app (a b : regex) (s1 s2 : string) :
  matches a s1 = true -> matches b s2 = true ->
  matches (Cat a b) (s1 +:+ s2) = true.
Proof.
  revert a. induction s1 as [|c s1 IH]; intros a Ha Hb.
  - apply matches_Cat_nil; assumption.
  - rewrite append_cons. cbn [matches deriv] in *.
    destruct (nullable a).
    + rewrite matches_Alt, IH by assumption. reflexivity.
    + now apply IH.
Qed.

Lemma matches_Star_app (a : regex) (s1 s2 : string) :
  matches a s1 = true -> matches (Star a) s2 = true ->
  matches (Star a) (s1 +:+ s2) = true.
Proof.
  intros Ha Hs. destruct s1 as [|c s1]; [exact Hs|].
  rewrite append_cons. cbn [matches deriv] in *.
  now apply matches_Cat_app.
Qed.

Lemma matches_lit (s : string) : matches (lit s) s = true.
Proof.
  induction s as [|c s IH]; [reflexivity|].
  cbn [matches lit deriv nullable]. rewrite Ascii.eqb_refl.
  now apply matches_Cat_nil.
Qed.

Lemma matches_Chr (p : ascii -> bool) (c : ascii) :
  p c = true -> matches (Chr p) (String c EmptyString) = true.
Proof. intros H. cbn [matches deriv]. now rewrite H. Qed.

Lemma matches_Star_all (p : ascii -> bool) (s : string) :
  all_chars p s = true -> matches (Star (Chr p)) s = true.
Proof.
  induction s as [|c s IH]; [reflexivity|].
  cbn [all_chars]. intros [Hc Hs]%andb_prop.
  change (String c s) with (String c EmptyString +:+ s).
  apply matches_Star_app; [now apply matches_Chr | now apply IH].
Qed.

Lemma matches_plus_all (p : ascii -> bool) (s : string) :
  s <> EmptyString -> all_chars p s = true ->
  matches (plus (Chr p)) s = true.
Proof.
  destruct s as [|c s]; [congruence|]. intros _.
  cbn [all_chars]. intros [Hc Hs]%andb_prop.
  change (String c s) with (String c EmptyString +:+ s).
  apply matches_Cat_app; [now apply matches_Chr | now apply matches_Star_all].
Qed.

End RegexFacts.

(** *** Numbers as text *)

Lemma all_chars_append (p : ascii -> bool) (a b : string) :
  all_chars p (a +:+ b) = all_chars p a && all_chars p b.
Proof.
  induction a as [|c a IH]; [reflexivity|].
  rewrite append_cons. cbn [all_chars]. now rewrite IH, andb_assoc.
Qed.

Lemma all_chars_weaken (p q : ascii -> bool) (s : string) :
  (forall c, p c = true -> q c = true) ->
  all_chars p s = true -> all_chars q s = true.
Proof.
  intros Hpq. induction s as [|c s IH]; [reflexivity|].
  cbn [all_chars]. intros [Hc Hs]%andb_prop.
  now rewrite (Hpq c Hc), IH.
Qed.

Lemma string_of_uint_digits (d : Decimal.uint) :
  all_chars Regex.digit (DecimalString.NilEmpty.string_of_uint d) = true.
Proof. induction d; cbn [DecimalString.NilEmpty.string_of_uint all_chars]; auto. Qed.

(** The decimal digits of a number: one at least, and digits only. *)
Lemma dec_digits (n : N) :
  dec n <> EmptyString /\ all_chars Regex.digit (dec n) = true.
Proof.
  unfold dec, DecimalString.NilZero.string_of_uint. split.
  - destruct (N.to_uint n); discriminate.
  - destruct (N.to_uint n); [reflexivity | ..]; cbv iota;
      apply string_of_uint_digits.
Qed.

Lemma short_id_range (id64 : Z) : (0 <= short_id id64 < 65536)%Z.
Proof.
  unfold short_id. generalize (fold_left
    (fun id16 offset => Z.lxor id16 (Z.shiftr id64 offset)) [0; 16; 32; 48]%Z
    0%Z). intros x.
  change 65535%Z with (Z.ones 16). rewrite Z.land_ones by lia.
  change 65536%Z with (2 ^ 16)%Z. apply Z.mod_pos_bound. lia.
Qed.

Lemma In_N_range (count : nat) (from n : N) :
  (from <= n < from + N.of_nat count)%N -> In n (N_range count from).
Proof.
  revert from. induction count as [|count IH]; intros from H; [lia|].
  cbn [N_range]. destruct (N.eq_dec from n) as [->|Hne]; [now left|].
  right. apply IH. lia.
Qed.

Lemma four_lower_hex_below (n : N) :
  (n < 65536)%N -> four_lower_hex n = true.
Proof.
  intros Hn.
  assert (Hall : forallb four_lower_hex (N_range (N.to_nat 65536) 0) = true)
    by (vm_compute; reflexivity).
  rewrite forallb_forall in Hall. apply Hall, In_N_range. lia.
Qed.

(** A 16-bit id prints as exactly four characters among [0-9a-f]. *)
Lemma format_0x_16_bits (z : Z) :
  (0 <= z < 65536)%Z ->
  exists a b c d,
    format_0x 4 z = String a (String b (String c (String d EmptyString)))
    /\ Regex.lower_hex a = true /\ Regex.lower_hex b = true
    /\ Regex.lower_hex c = true /\ Regex.lower_hex d = true.
Proof.
  intros Hz.
  assert (H : four_lower_hex (Z.to_N z) = true).
  { apply four_lower_hex_below. lia. }
  unfold four_lower_hex in H. rewrite Z2N.id in H by lia.
  destruct (format_0x 4 z) as [|a [|b [|c [|d [|e s]]]]]; try discriminate.
  apply andb_prop in H as [[[Ha Hb]%andb_prop Hc]%andb_prop Hd].
  now exists a, b, c, d.
Qed.

(** *** One-line texts *)

Lemma splitlines_one_line (s : string) :
  s <> EmptyString -> no_linebreak s = true -> splitlines s = [s].
Proof.
  induction s as [|c s IH]; [congruence|]. intros _.
  unfold no_linebreak. cbn [all_chars splitlines].
  intros [Hc Hs]%andb_prop. apply negb_true_iff in Hc. rewrite Hc.
  destruct s as [|c' s']; [reflexivity|].
  now rewrite IH.
Qed.

Lemma lower_hex_no_linebreak (c : ascii) :
  Regex.lower_hex c = true -> negb (is_linebreak c) = true.
Proof.
  unfold Regex.lower_hex, Regex.digit, is_linebreak, code.
  generalize (N_of_ascii c). intros n H.
  repeat match goal with
         | |- context [(?a <=? ?b)%N] => destruct (N.leb_spec a b)
         | |- context [(?a =? ?b)%N] => destruct (N.eqb_spec a b)
         | H : context [(?a <=? ?b)%N] |- _ => destruct (N.leb_spec a b)
         end; try reflexivity; try discriminate; lia.
Qed.

Lemma digit_no_linebreak (c : ascii) :
  Regex.digit c = true -> negb (is_linebreak c) = true.
Proof.
  intros H. apply lower_hex_no_linebreak. unfold Regex.lower_hex.
  now rewrite H.
Qed.

Lemma repeat_char_all (p : ascii -> bool) (c : ascii) (n : nat) :
  p c = true -> all_chars p (repeat_char c n) = true.
Proof.
  intros H. induction n as [|n IH]; [reflexivity|].
  cbn [repeat_char all_chars]. now rewrite H, IH.
Qed.

(** *** What a stream holds *)

Lemma written_app (f : IO) (a b : list Event) :
  written f (a ++ b) = written f a +:+ written f b.
Proof.
  induction a as [|e a IH]; [reflexivity|]. cbn [app written fold_right].
  fold (written f (a ++ b)). fold (written f a).
  destruct e as [| g text |]; try exact IH.
  destruct (IO_eqb f g); [|exact IH].
  now rewrite IH, append_assoc.
Qed.

Lemma IO_eqb_refl (f : IO) : IO_eqb f f = true.
Proof.
  destruct f; cbn [IO_eqb]; auto using String.eqb_refl, Nat.eqb_refl.
Qed.

Lemma written_nowhere (i : nat) (evs : list Event) :
  (forall text, ~ In (EvWrite (StringIO i) text) evs) ->
  written (StringIO i) evs = EmptyString.
Proof.
  induction evs as [|e l IH]; [reflexivity|].
  intros H. cbn [written fold_right]. fold (written (StringIO i) l).
  assert (IH' := IH (fun text Hin => H text (or_intror Hin))).
  destruct e as [| g text |]; try exact IH'.
  destruct g as [| | name | j]; try exact IH'.
  cbn [IO_eqb]. destruct (Nat.eqb_spec i j) as [->|]; [|exact IH'].
  elim (H text). now left.
Qed.

(** *** Writing through the pid filter *)

Lemma drop_length_append (a b : string) : drop (String.length a) (a +:+ b) = b.
Proof. induction a as [|c a IH]; [now destruct b | exact IH]. Qed.

(** A one-line message that a filter maps to one line. *)
Lemma filter_text_one_line (line r : string) (fn : Filter) (w w' : World) :
  rstrip (line +:+ nl) = line ->
  splitlines line = [line] ->
  call_filter fn line w = (Ok r, w') ->
  join nl (splitlines r) = r ->
  filter_text (line +:+ nl) [fn] w = (Ok (r +:+ nl), w').
Proof.
  intros Hstrip Hline Hcall Hr. unfold filter_text.
  rewrite Hstrip, drop_length_append. cbn [foldM].
  unfold bind at 1 2 3. rewrite Hline. cbn [foldM].
  unfold bind, ret. rewrite Hcall. cbn [app]. now rewrite Hr.
Qed.

Lemma pid_prefix_one_line (pid : N) (id64 : Z) (text : string) :
  no_linebreak text = true ->
  let r := format_d 5 (Z.of_N pid) +:+ "." +:+ format_0x 4 (short_id id64)
           +:+ ": " +:+ text in
  splitlines r = [r].
Proof.
  intros Ht r. apply splitlines_one_line.
  - unfold r, format_d, rjust.
    destruct (dec_digits (Z.to_N (Z.of_N pid))) as [Hne _].
    destruct (Z.of_N pid <? 0)%Z; [|].
    + destruct (repeat_char _ _); discriminate.
    + destruct (repeat_char _ _); [|discriminate].
      destruct (dec _); [congruence | discriminate].
  - unfold r, no_linebreak, format_d, rjust.
    destruct (Z.ltb_spec (Z.of_N pid) 0) as [|_]; [lia|].
    destruct (format_0x_16_bits _ (short_id_range id64))
      as (a & b & c & d & -> & Ha & Hb & Hc & Hd).
    rewrite !all_chars_append. cbn [all_chars].
    rewrite repeat_char_all by reflexivity.
    rewrite (all_chars_weaken _ _ _ digit_no_linebreak
               (proj2 (dec_digits _))).
    rewrite (lower_hex_no_linebreak a Ha), (lower_hex_no_linebreak b Hb),
      (lower_hex_no_linebreak c Hc), (lower_hex_no_linebreak d Hd).
    exact Ht.
Qed.

(** The sink of a [DebugControlString] made with the option [pid] only. *)
Lemma DebugControlString_init_pid (w : World) :
  FORCED_DEBUG w = [] ->
  DebugControlString_init ["pid"] w
  = (Ok {| options := ["pid"]; suppress_callers := false;
           output := {| oid := S (next_oid w);
                        outfile := Some (StringIO (next_oid w));
                        show_process := false;
                        filters := [F_add_pid_and_tid] |};
           raw_output := Some (StringIO (next_oid w)) |},
     set_next_oid (S (S (next_oid w))) w).
Proof.
  intros HF.
  unfold DebugControlString_init, DebugControl_init, bind, gets, new_oid.
  cbn [FORCED_DEBUG set_next_oid]. rewrite HF. reflexivity.
Qed.

Lemma write_hello_pid (debug : DebugControl) (f : IO) (w : World) :
  options debug = ["pid"] ->
  outfile (output debug) = Some f ->
  filters (output debug) = [F_add_pid_and_tid] ->
  exists w',
    write debug "hello" w = (Ok tt, w')
    /\ events w' = events w ++ [EvWrite f (hello_line w); EvFlush f; EvFlush f].
Proof.
  intros Ho Hf Hfl.
  unfold write, should, DebugOutputFile_write, DebugOutputFile_flush.
  rewrite Ho, Hf, Hfl.
  change (should_on ["pid"] (suppress_callers debug) "self") with false.
  replace (should_on ["pid"] (suppress_callers debug) "callers") with false
    by (now destruct (suppress_callers debug)).
  cbv iota.
  assert (Hft := filter_text_one_line "hello" _ F_add_pid_and_tid w w
                   eq_refl eq_refl eq_refl
                   (f_equal (join nl)
                      (pid_prefix_one_line (os_getpid w) (thread_get_ident w)
                         "hello" eq_refl))).
  unfold bind at 1 2. rewrite Hft.
  eexists. split; [reflexivity|].
  cbn [events set_events]. rewrite <- !app_assoc. cbn [app].
  unfold hello_line. now rewrite !append_assoc.
Qed.

Lemma session_pid_hello (w : World) :
  FORCED_DEBUG w = [] ->
  buffers_allocated w ->
  fst (DebugControlString_session ["pid"] "hello" w) = Ok (hello_line w).
Proof.
  intros HF Hb. unfold DebugControlString_session.
  rewrite (bind_ok _ _ _ _ _ (DebugControlString_init_pid w HF)).
  cbv beta.
  match goal with
  | |- context [bind (write ?debug _) _ ?w0] =>
      destruct (write_hello_pid debug (StringIO (next_oid w)) w0
                  eq_refl eq_refl eq_refl) as (w' & Hw & Hev)
  end.
  rewrite (bind_ok _ _ _ _ _ Hw).
  unfold get_output, gets, content. cbn [raw_output fst]. rewrite Hev.
  cbn [events set_next_oid]. rewrite written_app.
  rewrite written_nowhere.
  - cbn [written fold_right]. rewrite IO_eqb_refl.
    now rewrite append_empty_r.
  - intros text Hin. apply Hb in Hin. lia.
Qed.

Lemma matches_hello_tail (a b c d : ascii) :
  Regex.lower_hex a = true -> Regex.lower_hex b = true ->
  Regex.lower_hex c = true -> Regex.lower_hex d = true ->
  Regex.matches
    (Regex.Cat (Regex.lit ".")
       (Regex.Cat (Regex.Chr Regex.lower_hex) (Regex.Cat (Regex.Chr Regex.lower_hex)
          (Regex.Cat (Regex.Chr Regex.lower_hex) (Regex.Cat (Regex.Chr Regex.lower_hex)
             (Regex.Cat (Regex.lit (": hello" +:+ nl)) Regex.dollar))))))
    ("." +:+ String a (String b (String c (String d EmptyString)))
     +:+ ": hello" +:+ nl) = true.
Proof.
  intros Ha Hb Hc Hd.
  apply RegexFacts.matches_Cat_app; [apply RegexFacts.matches_lit|].
  change (String a (String b (String c (String d EmptyString)))
          +:+ ": hello" +:+ nl)
    with (String a EmptyString +:+ String b EmptyString
          +:+ String c EmptyString +:+ String d EmptyString
          +:+ (": hello" +:+ nl) +:+ EmptyString).
  repeat (apply RegexFacts.matches_Cat_app;
          [now apply RegexFacts.matches_Chr|]).
  apply RegexFacts.matches_Cat_app;
    [apply RegexFacts.matches_lit | reflexivity].
Qed.

(** C5, as amended: a [DebugControlString] with the option [pid] writes,
    for [hello], the process id right-aligned with spaces in a field of five
    characters, a dot, the thread id folded to four characters among
    [0-9a-f], a colon, a space, [hello] and a newline. The output matches
    [^ *\d+\.[0-9a-f]{4}: hello\n$], and the expression of the claim when the
    process id has five digits or more. *)
Theorem pid_prefix_is_padded (w : World) :
  FORCED_DEBUG w = [] ->
  buffers_allocated w ->
  fst (DebugControlString_session ["pid"] "hello" w) = Ok (hello_line w)
  /\ Regex.matches Regex.padded_pid_line (hello_line w) = true
  /\ (5 <= String.length (dec (os_getpid w)) ->
      Regex.matches Regex.pid_line (hello_line w) = true).
Proof.
  intros HF Hb. split; [now apply session_pid_hello|].
  assert (Hpid : Regex.matches Regex.pid_line
                   (dec (os_getpid w) +:+ "."
                    +:+ format_0x 4 (short_id (thread_get_ident w))
                    +:+ ": hello" +:+ nl) = true).
  { destruct (format_0x_16_bits _ (short_id_range (thread_get_ident w)))
      as (a & b & c & d & -> & Ha & Hb' & Hc & Hd).
    destruct (dec_digits (os_getpid w)) as [Hne Hdig].
    apply RegexFacts.matches_Cat_app;
      [now apply RegexFacts.matches_plus_all | now apply matches_hello_tail]. }
  assert (Hfmt : format_d 5 (Z.of_N (os_getpid w))
                 = repeat_char " " (5 - String.length (dec (os_getpid w)))
                   +:+ dec (os_getpid w)).
  { unfold format_d, rjust.
    destruct (Z.ltb_spec (Z.of_N (os_getpid w)) 0) as [|_]; [lia|].
    now rewrite N2Z.id. }
  unfold hello_line. rewrite Hfmt, append_assoc. split.
  - apply RegexFacts.matches_Cat_app; [|exact Hpid].
    apply RegexFacts.matches_Star_all, repeat_char_all. reflexivity.
  - intros Hlen. replace (5 - _) with 0 by lia. exact Hpid.
Qed.

(** C5, as stated, fails: in a process with pid 42 the line starts with
    three spaces, which [^\d+] does not match. *)
Lemma pid_line_has_leading_spaces :
  fst (DebugControlString_session ["pid"] "hello" a_world)
  = Ok ("   42.2cdb: hello" +:+ nl)
  /\ Regex.matches Regex.pid_line ("   42.2cdb: hello" +:+ nl) = false.
Proof. split; vm_compute; reflexivity. Qed.

(** *** The banner of a sink that shows the process *)

Lemma no_linebreak_append (a b : string) :
  no_linebreak (a +:+ b) = no_linebreak a && no_linebreak b.
Proof. apply all_chars_append. Qed.

Lemma repr_char_no_linebreak (quote c : ascii) :
  quote = squote \/ quote = dquote ->
  no_linebreak (repr_char quote c) = true.
Proof.
  intros [-> | ->];
    destruct c as [[] [] [] [] [] [] [] []]; vm_compute; reflexivity.
Qed.

Lemma repr_body_no_linebreak (quote : ascii) (s : string) :
  quote = squote \/ quote = dquote ->
  no_linebreak (repr_body quote s) = true.
Proof.
  intros Hq. induction s as [|c s IH]; [reflexivity|].
  cbn [repr_body]. now rewrite no_linebreak_append, repr_char_no_linebreak, IH.
Qed.

Lemma repr_no_linebreak (s : string) : no_linebreak (repr s) = true.
Proof.
  unfold repr.
  destruct (contains squote s && negb (contains dquote s)); cbv zeta;
    rewrite no_linebreak_append; unfold no_linebreak at 1;
    cbn [all_chars]; fold (no_linebreak (repr_body dquote s));
    fold (no_linebreak (repr_body squote s));
    rewrite repr_body_no_linebreak by auto; reflexivity.
Qed.

Lemma ends_visible_append (a b : string) :
  b <> EmptyString -> ends_visible (a +:+ b) = ends_visible b.
Proof.
  intros Hb. induction a as [|c a IH]; [reflexivity|].
  rewrite append_cons. cbn [ends_visible].
  destruct (a +:+ b) eqn:E; [|exact IH].
  destruct a; [now elim Hb | discriminate].
Qed.

Lemma append_nonempty_r (a b : string) :
  b <> EmptyString -> a +:+ b <> EmptyString.
Proof. destruct a; [trivial | discriminate]. Qed.

Lemma repr_ends_visible (s : string) : ends_visible (repr s) = true.
Proof.
  unfold repr.
  destruct (contains squote s && negb (contains dquote s)); cbv zeta;
    rewrite ends_visible_append by discriminate; reflexivity.
Qed.

Lemma ends_visible_nonempty (s : string) :
  ends_visible s = true -> s <> EmptyString.
Proof. destruct s; [discriminate | discriminate]. Qed.

(** [rstrip] removes the newline after a text that ends visibly, and only
    that. *)
Lemma rstrip_line (s : string) :
  ends_visible s = true -> rstrip (s +:+ nl) = s.
Proof.
  induction s as [|c s IH]; [discriminate|].
  rewrite append_cons. cbn [rstrip ends_visible].
  destruct s as [|c' s'].
  - intros Hc. apply negb_true_iff in Hc. rewrite append_nil.
    change (rstrip nl) with EmptyString. now rewrite Hc.
  - intros H. rewrite (IH H). cbn [is_empty]. now rewrite andb_false_r.
Qed.

Lemma splitlines_first_line (a b : string) :
  no_linebreak a = true -> splitlines (a +:+ nl +:+ b) = a :: splitlines b.
Proof.
  induction a as [|c a IH]; [reflexivity|].
  unfold no_linebreak. cbn [all_chars].
  intros [Hc Ha]%andb_prop. apply negb_true_iff in Hc.
  rewrite append_cons. cbn [splitlines]. now rewrite Hc, (IH Ha).
Qed.

Lemma join_no_linebreak (sep : string) (l : list string) :
  no_linebreak sep = true ->
  forallb no_linebreak l = true ->
  no_linebreak (join sep l) = true.
Proof.
  intros Hsep. induction l as [|x l IH]; [reflexivity|].
  cbn [forallb]. intros [Hx Hl]%andb_prop.
  unfold join in *. cbn [String.concat]. destruct l as [|y l]; [exact Hx|].
  now rewrite !no_linebreak_append, Hx, Hsep, IH.
Qed.

Lemma digits_end_visible (s : string) :
  s <> EmptyString -> all_chars Regex.digit s = true -> ends_visible s = true.
Proof.
  induction s as [|c s IH]; [congruence|]. intros _.
  cbn [all_chars ends_visible]. intros [Hc Hs]%andb_prop.
  destruct s as [|c' s']; [|apply IH; [discriminate | exact Hs]].
  revert Hc. unfold Regex.digit, is_space, code.
  generalize (N_of_ascii c). intros n Hn.
  repeat match goal with
         | |- context [(?a <=? ?b)%N] => destruct (N.leb_spec a b)
         | |- context [(?a =? ?b)%N] => destruct (N.eqb_spec a b)
         | H : context [(?a <=? ?b)%N] |- _ => destruct (N.leb_spec a b)
         end; try reflexivity; try discriminate; lia.
Qed.

Lemma format_d_0 (n : N) : format_d 0 (Z.of_N n) = dec n.
Proof.
  unfold format_d, rjust.
  destruct (Z.ltb_spec (Z.of_N n) 0) as [|_]; [lia|].
  now rewrite N2Z.id.
Qed.

Lemma banner_executable_line (w : World) :
  ends_visible (banner_executable w) = true
  /\ no_linebreak (banner_executable w) = true.
Proof.
  unfold banner_executable. split.
  - rewrite ends_visible_append; [apply repr_ends_visible|].
    apply ends_visible_nonempty, repr_ends_visible.
  - now rewrite no_linebreak_append, repr_no_linebreak.
Qed.

Lemma banner_cmd_line (w : World) :
  ends_visible (banner_cmd w) = true /\ no_linebreak (banner_cmd w) = true.
Proof.
  unfold banner_cmd, repr_argv, repr_list.
  destruct (sys_argv w) as [l|]; [|split; reflexivity]. split.
  - rewrite !ends_visible_append;
      [reflexivity | discriminate | apply append_nonempty_r; discriminate
      | apply append_nonempty_r, append_nonempty_r; discriminate].
  - rewrite !no_linebreak_append, join_no_linebreak; [reflexivity.. |].
    induction l as [|x l IH]; [reflexivity|].
    cbn [map forallb]. now rewrite repr_no_linebreak, IH.
Qed.

Lemma banner_pid_line (w : World) (ppid : N) :
  ends_visible (banner_pid w ppid) = true
  /\ no_linebreak (banner_pid w ppid) = true.
Proof.
  unfold banner_pid. rewrite !format_d_0.
  destruct (dec_digits ppid) as [Hne Hd].
  destruct (dec_digits (os_getpid w)) as [_ Hd']. split.
  - rewrite !ends_visible_append
      by (repeat apply append_nonempty_r; exact Hne).
    now apply digits_end_visible.
  - rewrite !no_linebreak_append.
    unfold no_linebreak at 2 4.
    rewrite (all_chars_weaken _ _ _ digit_no_linebreak Hd).
    rewrite (all_chars_weaken _ _ _ digit_no_linebreak Hd').
    reflexivity.
Qed.

Lemma join_two (a b : string) : join nl [a; b] = a +:+ nl +:+ b.
Proof. reflexivity. Qed.

(** A banner line through the chain that holds the tracker's filter only:
    the first one in a directory gets the [cwd is now] line in front. *)
Lemma filter_text_cwd (t : nat) (line : string) (w : World) :
  ends_visible line = true ->
  no_linebreak line = true ->
  exists w',
    filter_text (line +:+ nl) [F_CwdTracker_filter t] w
    = (Ok ((if bool_decide (Some (os_getcwd w) <> tracker_cwd w t)
            then cwd_line w +:+ nl else EmptyString) +:+ line +:+ nl), w')
    /\ tracker_cwd w' t = Some (os_getcwd w)
    /\ events w' = events w /\ next_oid w' = next_oid w
    /\ same_process w w'.
Proof.
  intros Hv Hl.
  assert (Hone : splitlines line = [line]).
  { apply splitlines_one_line; [now apply ends_visible_nonempty | exact Hl]. }
  destruct (bool_decide (Some (os_getcwd w) <> tracker_cwd w t)) eqn:E.
  - eexists. split.
    + rewrite <- append_assoc.
      apply filter_text_one_line; [now apply rstrip_line | exact Hone | |].
      * unfold call_filter, run_CwdTracker_filter, CwdTracker_filter.
        cbn [cwd]. rewrite E. unfold cwd_line.
        rewrite !append_assoc. reflexivity.
      * unfold cwd_line. rewrite !append_assoc.
        rewrite <- (append_assoc "cwd is now ").
        rewrite splitlines_first_line, Hone, join_two.
        -- now rewrite !append_assoc.
        -- now rewrite no_linebreak_append, repr_no_linebreak.
    + cbn [tracker_cwd set_tracker_cwd cwd]. rewrite Nat.eqb_refl.
      repeat split.
  - apply bool_decide_eq_false in E.
    assert (E' : tracker_cwd w t = Some (os_getcwd w)).
    { destruct (decide (tracker_cwd w t = Some (os_getcwd w))) as [|Hn];
        [assumption|]. elim E. congruence. }
    eexists. split.
    + rewrite append_nil.
      apply filter_text_one_line; [now apply rstrip_line | exact Hone | |].
      * unfold call_filter, run_CwdTracker_filter, CwdTracker_filter.
        cbn [cwd]. rewrite bool_decide_eq_false_2 by (rewrite E'; tauto).
        reflexivity.
      * now rewrite Hone.
    + cbn [tracker_cwd set_tracker_cwd cwd]. rewrite Nat.eqb_refl.
      repeat split. exact E'.
Qed.

Lemma write_banner_line (self : DebugOutputFile) (f : IO) (t : nat)
    (line : string) (w : World) :
  outfile self = Some f ->
  filters self = [F_CwdTracker_filter t] ->
  ends_visible line = true ->
  no_linebreak line = true ->
  exists w',
    DebugOutputFile_write self (line +:+ nl) w = (Ok tt, w')
    /\ events w'
       = events w
         ++ [EvWrite f ((if bool_decide (Some (os_getcwd w) <> tracker_cwd w t)
                         then cwd_line w +:+ nl else EmptyString)
                        +:+ line +:+ nl); EvFlush f]
    /\ tracker_cwd w' t = Some (os_getcwd w)
    /\ next_oid w' = next_oid w
    /\ same_process w w'.
Proof.
  intros Hf Hfl Hv Hl.
  destruct (filter_text_cwd t line w Hv Hl) as (w1 & Hft & Ht & He & Hn & Hp).
  unfold DebugOutputFile_write. rewrite Hf, Hfl.
  rewrite (bind_ok _ _ _ _ _ Hft).
  eexists. split; [reflexivity|].
  cbn [events set_events tracker_cwd next_oid]. rewrite He, <- app_assoc.
  repeat split; try assumption; apply Hp.
Qed.

Lemma cwd_prefix_first (w : World) (t : nat) :
  tracker_cwd w t = None ->
  (if bool_decide (Some (os_getcwd w) <> tracker_cwd w t)
   then cwd_line w +:+ nl else EmptyString) = cwd_line w +:+ nl.
Proof. intros ->. now rewrite bool_decide_eq_true_2. Qed.

Lemma cwd_prefix_later (w : World) (t : nat) :
  tracker_cwd w t = Some (os_getcwd w) ->
  (if bool_decide (Some (os_getcwd w) <> tracker_cwd w t)
   then cwd_line w +:+ nl else EmptyString) = EmptyString.
Proof. intros ->. rewrite bool_decide_eq_false_2; [reflexivity | tauto]. Qed.

(** The construction of a sink that shows the process, with no other
    filter: what it writes. *)
Lemma DebugOutputFile_init_banner (f : IO) (w : World) :
  exists self w',
    DebugOutputFile_init (Some f) true [] w = (Ok self, w')
    /\ filters self = [F_CwdTracker_filter (S (next_oid w))]
    /\ events w' = events w ++ banner_events f w.
Proof.
  unfold DebugOutputFile_init.
  erewrite bind_ok by reflexivity.
  erewrite bind_ok by reflexivity.
  erewrite bind_ok by reflexivity.
  cbn [sys_executable set_tracker_cwd set_next_oid next_oid].
  match goal with
  | |- context [bind (DebugOutputFile_write ?s _) _ ?w2] =>
      set (self := s); set (W2 := w2)
  end.
  assert (Ht2 : tracker_cwd W2 (S (next_oid w)) = None)
    by (subst W2; cbn [tracker_cwd set_tracker_cwd]; now rewrite Nat.eqb_refl).
  rewrite <- (append_assoc "New process: executable: ").
  fold (banner_executable w).
  destruct (write_banner_line self f (S (next_oid w)) (banner_executable w) W2
              eq_refl eq_refl (proj1 (banner_executable_line w))
              (proj2 (banner_executable_line w)))
    as (W3 & Hw3 & He3 & Ht3 & _ & Hp3).
  rewrite (bind_ok _ _ _ _ _ Hw3).
  erewrite bind_ok by reflexivity.
  rewrite <- (append_assoc "New process: cmd: ").
  replace (sys_argv W3) with (sys_argv w) by (symmetry; apply Hp3).
  fold (banner_cmd w).
  destruct (write_banner_line self f (S (next_oid w)) (banner_cmd w) W3
              eq_refl eq_refl (proj1 (banner_cmd_line w))
              (proj2 (banner_cmd_line w)))
    as (W4 & Hw4 & He4 & Ht4 & _ & Hp4).
  rewrite (bind_ok _ _ _ _ _ Hw4).
  erewrite bind_ok by reflexivity.
  assert (Hc3 : os_getcwd W3 = os_getcwd W2) by apply Hp3.
  assert (Hc4 : os_getcwd W4 = os_getcwd W3) by apply Hp4.
  rewrite cwd_prefix_first, append_assoc in He3 by exact Ht2.
  rewrite cwd_prefix_later, append_nil in He4 by congruence.
  replace (os_getppid W4) with (os_getppid w)
    by (symmetry; transitivity (os_getppid W3); [apply Hp4 | apply Hp3]).
  unfold banner_events.
  destruct (os_getppid w) as [ppid|].
  - destruct (write_banner_line self f (S (next_oid w)) (banner_pid w ppid) W4
                eq_refl eq_refl (proj1 (banner_pid_line w ppid))
                (proj2 (banner_pid_line w ppid)))
      as (W5 & Hw5 & He5 & _ & _ & _).
    rewrite cwd_prefix_later, append_nil in He5 by congruence.
    match goal with
    | |- context [bind ?m _ W4] => assert (Hstep : m W4 = (Ok tt, W5))
    end.
    { erewrite bind_ok by reflexivity.
      replace (os_getpid W4) with (os_getpid w)
        by (symmetry; transitivity (os_getpid W3); [apply Hp4 | apply Hp3]).
      rewrite <- (append_assoc ", parent pid: "),
        <- (append_assoc (format_d 0 (Z.of_N (os_getpid w)))),
        <- (append_assoc "New process: pid: ").
      exact Hw5. }
    rewrite (bind_ok _ _ _ _ _ Hstep).
    exists self, W5. split; [reflexivity|]. split; [reflexivity|].
    rewrite He5, He4, He3, <- !app_assoc. reflexivity.
  - erewrite bind_ok by reflexivity.
    exists self, W4. split; [reflexivity|]. split; [reflexivity|].
    rewrite He4, He3, <- !app_assoc. reflexivity.
Qed.

(** The construction of a sink that shows the process, with any further
    filters: the tracker's filter goes in front of them, and the stream is
    written to three times, or twice where [os] has no [getppid]. *)
Lemma DebugOutputFile_init_writes (f : IO) (fl : list Filter) (w : World) :
  exists self w' t1 t2 t3,
    DebugOutputFile_init (Some f) true fl w = (Ok self, w')
    /\ filters self = F_CwdTracker_filter (S (next_oid w)) :: fl
    /\ events w'
       = events w ++ [EvWrite f t1; EvFlush f; EvWrite f t2; EvFlush f]
         ++ match os_getppid w with
            | Some _ => [EvWrite f t3; EvFlush f]
            | None => []
            end.
Proof.
  unfold DebugOutputFile_init.
  erewrite bind_ok by reflexivity.
  erewrite bind_ok by reflexivity.
  erewrite bind_ok by reflexivity.
  cbn [sys_executable set_tracker_cwd set_next_oid next_oid].
  match goal with
  | |- context [bind (DebugOutputFile_write ?s _) _ ?w2] =>
      set (self := s); set (W2 := w2)
  end.
  match goal with
  | |- context [bind (DebugOutputFile_write self ?text) _ W2] =>
      destruct (DebugOutputFile_write_events self f text W2 eq_refl)
        as (t1 & W3 & Hw3 & He3 & Hp3)
  end.
  rewrite (bind_ok _ _ _ _ _ Hw3).
  erewrite bind_ok by reflexivity.
  match goal with
  | |- context [bind (DebugOutputFile_write self ?text) _ W3] =>
      destruct (DebugOutputFile_write_events self f text W3 eq_refl)
        as (t2 & W4 & Hw4 & He4 & Hp4)
  end.
  rewrite (bind_ok _ _ _ _ _ Hw4).
  erewrite bind_ok by reflexivity.
  replace (os_getppid W4) with (os_getppid w)
    by (symmetry; transitivity (os_getppid W3); [apply Hp4 | apply Hp3]).
  destruct (os_getppid w) as [ppid|].
  - match goal with
    | |- context [bind ?m _ W4] =>
        assert (Hstep : exists t3 W5,
                   m W4 = (Ok tt, W5)
                   /\ events W5 = events W4 ++ [EvWrite f t3; EvFlush f])
    end.
    { erewrite bind_ok by reflexivity.
      match goal with
      | |- context [DebugOutputFile_write self ?text W4] =>
          destruct (DebugOutputFile_write_events self f text W4 eq_refl)
            as (t3 & W5 & Hw5 & He5 & _)
      end.
      now exists t3, W5. }
    destruct Hstep as (t3 & W5 & Hw5 & He5).
    rewrite (bind_ok _ _ _ _ _ Hw5).
    exists self, W5, t1, t2, t3. split; [reflexivity|]. split; [reflexivity|].
    rewrite He5, He4, He3, <- !app_assoc. reflexivity.
  - erewrite bind_ok by reflexivity.
    exists self, W4, t1, t2, EmptyString.
    split; [reflexivity|]. split; [reflexivity|].
    rewrite He4, He3, <- !app_assoc. reflexivity.
Qed.

Lemma cwd_line_no_linebreak (w : World) : no_linebreak (cwd_line w) = true.
Proof.
  unfold cwd_line. now rewrite no_linebreak_append, repr_no_linebreak.
Qed.

(** The lines a new sink's banner puts on its stream. *)
Lemma banner_lines (f : IO) (w : World) :
  splitlines (written f (banner_events f w))
  = cwd_line w :: banner_executable w :: banner_cmd w
    :: match os_getppid w with
       | Some ppid => [banner_pid w ppid]
       | None => []
       end.
Proof.
  unfold banner_events.
  pose proof (cwd_line_no_linebreak w) as Hcwd.
  pose proof (proj2 (banner_executable_line w)) as Hexe.
  pose proof (proj2 (banner_cmd_line w)) as Hcmd.
  destruct (os_getppid w) as [ppid|]; cbn [app written fold_right];
    rewrite IO_eqb_refl, !append_assoc;
    rewrite !splitlines_first_line;
    try reflexivity; try assumption.
  exact (proj2 (banner_pid_line w ppid)).
Qed.

(** C6, as amended: a sink constructed with [show_process] true puts the
    working-directory filter at the front of its filter chain and then
    writes, before any write of a caller, the line of the executable and the
    line of the arguments, and the line of the process id and parent process
    id only where [os] has [getppid]: three writes there, two elsewhere,
    whatever the other filters. With no other filter these are three banner
    lines, or two, and the filter puts its [cwd is now] line before the
    first. *)
Theorem new_sink_banner (f : IO) (w : World) :
  (forall fl, exists self w' t1 t2 t3,
      DebugOutputFile_init (Some f) true fl w = (Ok self, w')
      /\ filters self = F_CwdTracker_filter (S (next_oid w)) :: fl
      /\ events w'
         = events w ++ [EvWrite f t1; EvFlush f; EvWrite f t2; EvFlush f]
           ++ match os_getppid w with
              | Some _ => [EvWrite f t3; EvFlush f]
              | None => []
              end)
  /\ exists self w',
      DebugOutputFile_init (Some f) true [] w = (Ok self, w')
      /\ events w' = events w ++ banner_events f w
      /\ splitlines (written f (banner_events f w))
         = cwd_line w :: banner_executable w :: banner_cmd w
           :: match os_getppid w with
              | Some ppid => [banner_pid w ppid]
              | None => []
              end
      /\ length (new_process_lines (written f (banner_events f w)))
         = match os_getppid w with Some _ => 3 | None => 2 end.
Proof.
  split; [intros fl; apply DebugOutputFile_init_writes|].
  destruct (DebugOutputFile_init_banner f w) as (self & w' & Hi & _ & He).
  exists self, w'. repeat split; try assumption.
  - apply banner_lines.
  - unfold new_process_lines. rewrite banner_lines.
    destruct (os_getppid w); reflexivity.
Qed.

(** C6, as stated, fails: where [os] has no [getppid], the sink writes two
    banner lines, and no line with the process id. *)
Lemma banner_without_getppid :
  let w' := snd (DebugOutputFile_init (Some (StringIO 0)) true []
                   a_world_without_getppid) in
  new_process_lines (content (StringIO 0) w')
  = ["New process: executable: '/usr/bin/python3'";
     "New process: cmd: ['prog', '-x']"]
  /\ length (new_process_lines (content (StringIO 0) w')) <> 3.
Proof. split; [vm_compute; reflexivity | vm_compute; discriminate]. Qed.

(** ** The theorems at work on a process *)

(** With [callers] forced, a controller made for [pid] alone logs callers,
    and does not while they are suppressed. *)
Lemma should_iff_enabled_witness :
  exists self w',
    DebugControl_init ["pid"] (Some (StringIO 0)) None a_world_configured
    = (Ok self, w')
    /\ (should (set_suppress_callers false self) "callers" = true
        <-> In "callers" (["pid"] ++ FORCED_DEBUG a_world_configured)
            /\ ~ ("callers" = "callers" /\ false = true))
    /\ (should (set_suppress_callers true self) "callers" = true
        <-> In "callers" (["pid"] ++ FORCED_DEBUG a_world_configured)
            /\ ~ ("callers" = "callers" /\ true = true)).
Proof.
  do 2 eexists. split; [vm_compute; reflexivity|].
  split;
    eapply (should_iff_enabled ["pid"] (Some (StringIO 0)) None
              a_world_configured);
    vm_compute; reflexivity.
Defined.

(** The first lookup makes the singleton on standard error; the second,
    asking for a file, gets the same sink. *)
Lemma get_one_twice_same_instance_witness :
  exists first w1,
    get_one None None true [] false a_world = (Ok first, w1)
    /\ get_one None (Some "debug.txt") false [F_add_pid_and_tid] false w1
       = (Ok first, w1)
    /\ singleton_of w1 = (Some first, false).
Proof.
  do 2 eexists. split; [vm_compute; reflexivity|].
  eapply (get_one_twice_same_instance None (Some "debug.txt") true false []
            [F_add_pid_and_tid] a_world).
  vm_compute; reflexivity.
Defined.


(** The line written for [hello] in the process with pid 42. *)
Lemma pid_prefix_is_padded_witness :
  FORCED_DEBUG a_world = []
  /\ buffers_allocated a_world
  /\ fst (DebugControlString_session ["pid"] "hello" a_world)
     = Ok (hello_line a_world)
  /\ Regex.matches Regex.padded_pid_line (hello_line a_world) = true.
Proof.
  assert (Hb : buffers_allocated a_world) by (intros i text []).
  split; [reflexivity|]. split; [exact Hb|].
  destruct (pid_prefix_is_padded a_world eq_refl Hb) as (H1 & H2 & _).
  split; assumption.
Defined.

(** With a limit of one frame, the summary is the direct caller's line. *)
Lemma short_stack_outermost_first_witness :
  (0 <= 0)%Z
  /\ short_stack (Some 1%Z) 0 a_world
     = (Ok (join nl (map frame_line
                       (rev (skipn 0 (firstn 1 (call_stack a_world)))))),
        a_world).
Proof.
  split; [lia|].
  refine (proj1 (short_stack_outermost_first (Some 1%Z) 0 a_world _ _)).
  - lia.
  - intros l [= <-]. lia.
Defined.

(** ** Further properties of the module *)

(** *** [short_id] *)

Lemma short_id_unfold (id64 : Z) :
  short_id id64
  = Z.land (Z.lxor (Z.lxor (Z.lxor (Z.lxor 0 (Z.shiftr id64 0))
                              (Z.shiftr id64 16)) (Z.shiftr id64 32))
              (Z.shiftr id64 48)) (Z.ones 16).
Proof. reflexivity. Qed.

Lemma short_id_bit (id64 i : Z) :
  (0 <= i)%Z ->
  Z.testbit (short_id id64) i
  = (xorb (xorb (xorb (Z.testbit id64 i) (Z.testbit id64 (i + 16)))
             (Z.testbit id64 (i + 32))) (Z.testbit id64 (i + 48))
     && (i <? 16)%Z).
Proof.
  intros Hi. rewrite short_id_unfold, Z.land_spec, !Z.lxor_spec.
  rewrite !Z.shiftr_spec by assumption. rewrite Z.add_0_r.
  rewrite Z.bits_0, xorb_false_l. f_equal.
  destruct (Z.ltb_spec i 16).
  - apply Z.ones_spec_low. lia.
  - apply Z.ones_spec_high. lia.
Qed.

(** The short id of any integer is a 16-bit number; it depends on the low
    64 bits of the id only, and a 16-bit id is its own short id. *)
Theorem short_id_16_bits (id64 : Z) :
  (0 <= short_id id64 < 65536)%Z
  /\ short_id (id64 mod 2 ^ 64) = short_id id64
  /\ short_id (id64 mod 2 ^ 16) = (id64 mod 2 ^ 16)%Z.
Proof.
  split; [apply short_id_range|]. split.
  - apply Z.bits_inj'. intros i Hi. rewrite !short_id_bit by assumption.
    destruct (Z.ltb_spec i 16) as [Hlt|]; [|now rewrite !andb_false_r].
    now rewrite !Z.mod_pow2_bits_low by lia.
  - apply Z.bits_inj'. intros i Hi. rewrite short_id_bit by assumption.
    destruct (Z.ltb_spec i 16) as [Hlt|].
    + rewrite (Z.mod_pow2_bits_high _ 16 (i + 16)),
        (Z.mod_pow2_bits_high _ 16 (i + 32)),
        (Z.mod_pow2_bits_high _ 16 (i + 48)) by lia.
      now rewrite !xorb_false_r, andb_true_r.
    + rewrite andb_false_r. symmetry. apply Z.mod_pow2_bits_high. lia.
Qed.

(** *** [filter_text] *)

Lemma rstrip_blank (text : string) :
  all_chars is_space text = true -> rstrip text = EmptyString.
Proof.
  induction text as [|c text IH]; [reflexivity|].
  cbn [all_chars rstrip]. intros [Hc Ht]%andb_prop.
  now rewrite (IH Ht), Hc.
Qed.

Lemma filter_nothing (filters : list Filter) (w : World) :
  foldM
    (fun text fn =>
       lines <- foldM
                  (fun lines line =>
                     r <- call_filter fn line ;; ret (lines ++ splitlines r))
                  (splitlines text) [] ;;
       ret (join nl lines))
    filters EmptyString w
  = (Ok EmptyString, w).
Proof.
  induction filters as [|fn filters IH]; [reflexivity|].
  cbn [foldM splitlines]. unfold bind at 1 2. cbn [ret join String.concat].
  exact IH.
Qed.

(** A text of whitespace only (a lone newline, as [dump_stack_frames]
    writes) passes through any filters unchanged: no filter is called, no
    pid is put before it and no directory is announced. *)
Theorem filter_text_blank (text : string) (filters : list Filter) (w : World) :
  all_chars is_space text = true ->
  filter_text text filters w = (Ok text, w).
Proof.
  intros H. unfold filter_text. rewrite (rstrip_blank text H).
  unfold bind. rewrite filter_nothing. reflexivity.
Qed.

Lemma filter_text_blank_witness :
  all_chars is_space nl = true
  /\ filter_text nl [F_add_pid_and_tid; F_CwdTracker_filter 0] a_world
     = (Ok nl, a_world).
Proof.
  split; [reflexivity|].
  apply (filter_text_blank nl [F_add_pid_and_tid; F_CwdTracker_filter 0]
           a_world).
  reflexivity.
Defined.

Lemma splitlines_no_linebreak (s : string) :
  forallb no_linebreak (splitlines s) = true.
Proof.
  induction s as [|c s IH]; [reflexivity|]. cbn [splitlines].
  destruct (is_linebreak c) eqn:Ec.
  - destruct (Ascii.eqb c CR && starts_with_LF s); [exact IH|].
    cbn [forallb]. now rewrite IH.
  - destruct (splitlines s) as [|l ls]; cbn [forallb] in *.
    + unfold no_linebreak. cbn [all_chars]. now rewrite Ec.
    + apply andb_prop in IH as [Hl Hls]. rewrite Hls.
      unfold no_linebreak in *. cbn [all_chars]. now rewrite Ec, Hl.
Qed.

Lemma add_pid_and_tid_lines (ls acc : list string) (w : World) :
  forallb no_linebreak ls = true ->
  foldM
    (fun lines line =>
       r <- call_filter F_add_pid_and_tid line ;; ret (lines ++ splitlines r))
    ls acc w
  = (Ok (acc ++ map (fun line => pid_prefix w +:+ line) ls), w).
Proof.
  revert acc. induction ls as [|l ls IH]; intros acc H; cbn [foldM map].
  - now rewrite app_nil_r.
  - cbn [forallb] in H. apply andb_prop in H as [Hl Hls].
    unfold bind at 1 2. cbn [call_filter].
    unfold add_pid_and_tid at 1, bind at 1 2, gets at 1 2, ret at 1 2.
    rewrite (pid_prefix_one_line (os_getpid w) (thread_get_ident w) l Hl).
    rewrite (IH _ Hls), <- app_assoc. cbn [app].
    unfold pid_prefix. now rewrite !append_assoc.
Qed.

(** Through the pid filter every line of a text gets the pid and thread id
    in front, the lines are joined by newlines again, and the trailing
    whitespace of the text comes last, without a prefix. *)
Theorem filter_text_pid_every_line (text : string) (w : World) :
  filter_text text [F_add_pid_and_tid] w
  = (Ok (join nl (map (fun line => pid_prefix w +:+ line)
                    (splitlines (rstrip text)))
         +:+ drop (String.length (rstrip text)) text), w).
Proof.
  unfold filter_text. cbn [foldM]. unfold bind at 1 2 3.
  rewrite add_pid_and_tid_lines by apply splitlines_no_linebreak.
  reflexivity.
Qed.

(** *** [add_pid_and_tid] *)

Lemma length_repeat_char (c : ascii) (n : nat) :
  String.length (repeat_char c n) = n.
Proof. induction n as [|n IH]; [reflexivity|]. cbn. now rewrite IH. Qed.




(** *** The singleton: failure to open, and reset *)

(** When the debug file cannot be opened, the lookup raises the error of
    [open] and leaves everything as it was: no sink is made and the
    singleton is not set. *)
Theorem get_one_open_fails (name : string) (show : bool) (fl : list Filter)
    (interim : bool) (w : World) :
  fst (singleton_of w) = None \/ snd (singleton_of w) = true ->
  can_append w name = false ->
  get_one None (Some name) show fl interim w = (Raise (OSError name), w).
Proof.
  intros Hs Hc. unfold get_one.
  rewrite (bind_ok _ _ _ _ _ (_get_singleton_data_pure w)).
  assert (Hopen : get_one_fileobj (Some name) w = (Raise (OSError name), w)).
  { unfold get_one_fileobj, open_append, bind, gets. now rewrite Hc. }
  destruct (singleton_of w) as [[o|] [|]]; cbn [fst snd] in Hs;
    try (now rewrite (bind_raise _ _ _ _ _ Hopen)).
  destruct Hs; discriminate.
Qed.

Lemma get_one_open_fails_witness :
  can_append a_world_read_only "/ro/debug.txt" = false
  /\ get_one None (Some "/ro/debug.txt") true [] false a_world_read_only
     = (Raise (OSError "/ro/debug.txt"), a_world_read_only).
Proof.
  split; [reflexivity|].
  apply (get_one_open_fails "/ro/debug.txt" true [] false a_world_read_only).
  - left. reflexivity.
  - reflexivity.
Defined.


(** After [_del_singleton_data] there is no singleton, also when one was
    locked in before, and the next lookup makes a new sink, which is the
    singleton from then on. *)
Theorem reset_then_lookup (name : string) (show : bool) (fl : list Filter)
    (interim : bool) (w : World) :
  can_append w name = true ->
  exists w0 the_one w',
    _del_singleton_data w = (Ok tt, w0)
    /\ singleton_of w0 = (None, true)
    /\ get_one None (Some name) show fl interim w0 = (Ok the_one, w')
    /\ oid the_one = next_oid w
    /\ outfile the_one = Some (FileObj name)
    /\ singleton_of w' = (Some the_one, interim).
Proof.
  intros Hc. eexists. 
  assert (Hs : singleton_of
                 (set_sys_modules (delete SYS_MOD_NAME (sys_modules w)) w)
               = (None, true)).
  { unfold singleton_of, _get_singleton_data, gets.
    cbn [sys_modules set_sys_modules]. now rewrite lookup_delete_eq. }
  set (w0 := set_sys_modules (delete SYS_MOD_NAME (sys_modules w)) w) in *.
  assert (Hnew :
    returns (get_one None (Some name) show fl interim) w0
      (fun the_one w' =>
         oid the_one = next_oid w /\ outfile the_one = Some (FileObj name)
         /\ singleton_of w' = (Some the_one, interim))).
  { unfold get_one. apply returns_bind.
    unfold returns at 1. rewrite _get_singleton_data_pure, Hs.
    apply returns_bind.
    apply (returns_weaken _ _ _ _ (open_append_returns name w0 Hc)).
    intros f w1 (-> & _ & _ & Hn1).
    change (next_oid w0) with (next_oid w) in Hn1.
    apply returns_bind.
    apply (returns_weaken _ _ _ _ (DebugOutputFile_init_returns _ show fl w1)).
    intros o w2 (Hoid & Hout & _).
    apply returns_bind, returns_modify, returns_ret.
    repeat split; [congruence | assumption |].
    unfold singleton_of, _get_singleton_data, gets.
    cbn [sys_modules set_sys_modules]. now rewrite lookup_insert_eq. }
  apply returns_inv in Hnew as (the_one & w' & Hg & Ho & Hf & Hsing).
  exists the_one, w'. repeat split; assumption.
Qed.

Lemma reset_then_lookup_witness :
  can_append a_world "debug.txt" = true
  /\ exists w0 the_one w',
       _del_singleton_data a_world = (Ok tt, w0)
       /\ singleton_of w0 = (None, true)
       /\ get_one None (Some "debug.txt") false [] false w0 = (Ok the_one, w')
       /\ oid the_one = next_oid a_world
       /\ outfile the_one = Some (FileObj "debug.txt")
       /\ singleton_of w' = (Some the_one, false).
Proof.
  split; [reflexivity|].
  apply (reset_then_lookup "debug.txt" false [] false a_world). reflexivity.
Defined.

(** *** The working directory filter in a sink *)




(** *** [DebugControl.write] on a sink without filters *)

Lemma filter_text_nil (text : string) (w : World) :
  filter_text text [] w = (Ok text, w).
Proof.
  unfold filter_text. cbn [foldM]. unfold bind, ret. now rewrite rstrip_drop.
Qed.

Lemma DebugOutputFile_write_nil (out : DebugOutputFile) (f : IO)
    (text : string) (w : World) :
  outfile out = Some f ->
  filters out = [] ->
  DebugOutputFile_write out text w
  = (Ok tt, set_events ((events w ++ [EvWrite f text]) ++ [EvFlush f]) w).
Proof.
  intros Hf Hfl. unfold DebugOutputFile_write. rewrite Hf, Hfl.
  rewrite (bind_ok _ _ _ _ _ (filter_text_nil text w)). reflexivity.
Qed.

Lemma should_self (self : DebugControl) :
  should self "self" = py_in "self" (options self).
Proof. reflexivity. Qed.

Lemma returns_inv_unit (m : M unit) (w : World) (Q : unit -> World -> Prop) :
  returns m w Q -> exists w', m w = (Ok tt, w') /\ Q tt w'.
Proof.
  intros H. apply returns_inv in H as ([] & w' & H). now exists w'.
Qed.

Lemma returns_calling {A} (name : string) (line : Z) (m : M A) (w : World)
    (Q : A -> World -> Prop) :
  returns m (set_call_stack (own_frame name line w :: call_stack w) w)
    (fun a w' => Q a (set_call_stack (call_stack w) w')) ->
  returns (calling name line m) w Q.
Proof.
  unfold returns, calling.
  destruct (m _) as [[a|e] w']; [|intros []]. intros H. exact H.
Qed.

Lemma returns_write_nil (out : DebugOutputFile) (f : IO) (text : string)
    (w : World) (Q : unit -> World -> Prop) :
  outfile out = Some f ->
  filters out = [] ->
  Q tt (set_events ((events w ++ [EvWrite f text]) ++ [EvFlush f]) w) ->
  returns (DebugOutputFile_write out text) w Q.
Proof.
  intros Hf Hfl HQ. unfold returns.
  now rewrite (DebugOutputFile_write_nil out f text w Hf Hfl).
Qed.

(** The summary [short_stack] makes when called through [own], frames of
    this module that are skipped together with [short_stack]'s own frame
    [top]: the callers below them, without the nearest [skip], outermost
    first. *)
Lemma short_stack_on_own (top : FrameInfo) (own callers : list FrameInfo)
    (skip : Z) :
  (0 <= skip)%Z ->
  short_stack_on (top :: own ++ callers) None (skip + Z.of_nat (length own))
  = join nl (map frame_line (rev (skipn (Z.to_nat skip) callers))).
Proof.
  intros Hs. unfold short_stack_on.
  rewrite slice_rev_from_end by lia. cbn [skipn]. do 3 f_equal.
  replace (Z.to_nat (skip + Z.of_nat (length own)))
    with (Z.to_nat skip + length own) by lia.
  rewrite <- skipn_skipn. f_equal.
  now rewrite skipn_app, skipn_all, Nat.sub_diag.
Qed.

(** *** [dump_stack_frames] *)

Lemma short_stack_on_limit (top below : FrameInfo) (callers : list FrameInfo)
    (l skip : Z) :
  (0 <= skip)%Z -> (0 <= l)%Z ->
  short_stack_on (top :: below :: callers) (Some l) (skip + 1)
  = join nl (map frame_line
               (rev (skipn (Z.to_nat skip)
                       (firstn (Z.to_nat (l - 1)) callers)))).
Proof.
  intros Hs Hl. unfold short_stack_on.
  rewrite slice_rev_between by lia. do 3 f_equal.
  replace (Z.to_nat (skip + 1)) with (S (Z.to_nat skip)) by lia.
  cbn [firstn skipn].
  destruct (Z.eq_dec l 0%Z) as [->|Hne].
  - cbn [Z.to_nat firstn]. now rewrite !skipn_nil.
  - replace (Z.to_nat l) with (S (Z.to_nat (l - 1))) by lia. reflexivity.
Qed.

(** [dump_stack_frames] with no [out] writes to standard output, without
    flushing, the summary of the frames below itself and then a newline:
    its own frame never shows. The nearest [skip] callers are left out, and
    a [limit] counts the frames of [short_stack] and [dump_stack_frames]
    too, so that it keeps the callers before the [limit - 1]-th only. *)
Theorem dump_stack_frames_to_stdout (limit : option Z) (skip : Z) (w : World) :
  (0 <= skip)%Z ->
  (forall l, limit = Some l -> (0 <= l)%Z) ->
  exists w',
    dump_stack_frames limit None skip w = (Ok tt, w')
    /\ call_stack w' = call_stack w
    /\ events w'
       = events w
         ++ [EvWrite sys_stdout
               (join nl
                  (map frame_line
                     (rev (skipn (Z.to_nat skip)
                             match limit with
                             | Some l => firstn (Z.to_nat (l - 1)) (call_stack w)
                             | None => call_stack w
                             end))));
             EvWrite sys_stdout nl].
Proof.
  intros Hs Hl.
  apply (returns_inv_unit _ _ (fun _ w' => call_stack w' = _ /\ events w' = _)).
  unfold dump_stack_frames.
  apply returns_bind, returns_calling.
  unfold returns, short_stack, inspect_stack, bind, gets, ret.
  cbn [call_stack set_call_stack TWritable_write emit modify events set_events].
  split; [reflexivity|].
  rewrite <- app_assoc. cbn [app]. do 3 f_equal.
  destruct limit as [l|].
  - now apply short_stack_on_limit; [|apply Hl].
  - apply (short_stack_on_own _ [_] (call_stack w) skip Hs).
Qed.

Lemma dump_stack_frames_to_stdout_witness :
  (0 <= 1)%Z
  /\ exists w',
       dump_stack_frames (Some 3%Z) None 1 a_world = (Ok tt, w')
       /\ call_stack w' = call_stack a_world
       /\ events w'
          = events a_world
            ++ [EvWrite sys_stdout
                  (join nl
                     (map frame_line
                        (rev (skipn (Z.to_nat 1)
                                (firstn (Z.to_nat (3 - 1))
                                   (call_stack a_world))))));
                EvWrite sys_stdout nl].
Proof.
  split; [lia|].
  apply (dump_stack_frames_to_stdout (Some 3%Z) 1 a_world).
  - lia.
  - intros l [= <-]. lia.
Defined.

(** *** [DebugControl.write], all of it *)

(** What [write] does on a sink without filters, for a caller [caller]:
    the message and a newline, flushed; the caller's [self] if the option
    [self] is on and the caller has one; the summary of the stack from the
    outermost frame down to the caller of [write] and a newline if the
    option [callers] is on and not suppressed; and a last flush. *)
Lemma write_events (self : DebugControl) (f : IO) (msg : string)
    (caller : FrameInfo) (rest : list FrameInfo) (w : World) :
  outfile (output self) = Some f ->
  filters (output self) = [] ->
  call_stack w = caller :: rest ->
  exists w',
    write self msg w = (Ok tt, w')
    /\ call_stack w' = call_stack w
    /\ events w'
       = events w ++ [EvWrite f (msg +:+ nl); EvFlush f]
         ++ (if should self "self" then
               match f_self caller with
               | Some caller_self =>
                   [EvWrite f ("self: " +:+ caller_self +:+ nl); EvFlush f]
               | None => []
               end
             else [])
         ++ (if should self "callers" then
               [EvWrite f (join nl (map frame_line (rev (call_stack w))));
                EvFlush f; EvWrite f nl; EvFlush f]
             else [])
         ++ [EvFlush f].
Proof.
  intros Hf Hfl Hcs.
  apply (returns_inv_unit _ _ (fun _ w' => call_stack w' = _ /\ events w' = _)).
  unfold write.
  apply returns_bind. apply (returns_write_nil _ f _ _ _ Hf Hfl).
  apply returns_bind.
  set (self_part := if should self "self" then
                      match f_self caller with
                      | Some caller_self =>
                          [EvWrite f ("self: " +:+ caller_self +:+ nl); EvFlush f]
                      | None => []
                      end
                    else []).
  match goal with
  | |- returns _ ?w1 _ =>
      apply (returns_weaken _ _
               (fun _ w' => call_stack w' = call_stack w
                            /\ debug_py w' = debug_py w
                            /\ events w' = events w1 ++ self_part))
  end.
  { subst self_part. destruct (should self "self").
    - apply returns_bind. unfold inspect_stack. apply returns_gets.
      cbn [nth_error call_stack set_events]. rewrite Hcs.
      destruct (f_self caller) as [caller_self|].
      + apply (returns_write_nil _ f _ _ _ Hf Hfl).
        cbn [call_stack debug_py events set_events].
        rewrite <- !app_assoc. repeat split; assumption.
      + apply returns_ret. cbn [call_stack debug_py events set_events].
        rewrite app_nil_r. repeat split; assumption.
    - apply returns_ret. cbn [call_stack debug_py events set_events].
      rewrite app_nil_r. repeat split. }
  intros _ w2 (Hc2 & Hd2 & He2).
  apply returns_bind.
  set (callers_part := if should self "callers" then
                         [EvWrite f (join nl (map frame_line
                                                (rev (call_stack w))));
                          EvFlush f; EvWrite f nl; EvFlush f]
                       else []).
  apply (returns_weaken _ _
           (fun _ w' => call_stack w' = call_stack w
                        /\ events w' = events w2 ++ callers_part)).
  { subst callers_part. destruct (should self "callers").
    - apply returns_calling. unfold dump_stack_frames.
      apply returns_bind, returns_calling.
      unfold returns at 1, short_stack, inspect_stack, bind, gets, ret.
      cbn [call_stack set_call_stack TWritable_write].
      apply returns_bind. apply (returns_write_nil _ f _ _ _ Hf Hfl).
      apply (returns_write_nil _ f _ _ _ Hf Hfl).
      cbn [call_stack set_call_stack events set_events debug_py].
      split; [exact Hc2|].
      rewrite <- !app_assoc. cbn [app]. do 3 f_equal.
      rewrite Hc2.
      exact (short_stack_on_own _ [_; _] (call_stack w) 0 ltac:(lia)).
    - apply returns_ret. now rewrite app_nil_r. }
  intros _ w3 (Hc3 & He3).
  unfold DebugOutputFile_flush. rewrite Hf. unfold emit. apply returns_modify.
  cbn [call_stack events set_events]. split; [assumption|].
  rewrite He3, He2. cbn [events set_events].
  now rewrite <- !app_assoc.
Qed.

(** On a sink without filters, [write] writes the message and a newline
    and flushes; with the option [self] it adds the [repr] of the caller's
    [self], if the caller has one; with the option [callers], not
    suppressed, it adds the summary of the stack, which runs from the
    outermost frame down to the caller of [write] and shows no frame of this
    module, and a newline; it ends with a flush and leaves the call stack as
    it was. *)
Theorem write_self_and_callers (self : DebugControl) (f : IO) (msg : string)
    (caller : FrameInfo) (rest : list FrameInfo) (w : World) :
  outfile (output self) = Some f ->
  filters (output self) = [] ->
  call_stack w = caller :: rest ->
  exists w',
    write self msg w = (Ok tt, w')
    /\ call_stack w' = call_stack w
    /\ events w'
       = events w ++ [EvWrite f (msg +:+ nl); EvFlush f]
         ++ (if should self "self" then
               match f_self caller with
               | Some caller_self =>
                   [EvWrite f ("self: " +:+ caller_self +:+ nl); EvFlush f]
               | None => []
               end
             else [])
         ++ (if should self "callers" then
               [EvWrite f (join nl (map frame_line (rev (call_stack w))));
                EvFlush f; EvWrite f nl; EvFlush f]
             else [])
         ++ [EvFlush f].
Proof. exact (write_events self f msg caller rest w). Qed.

(** Inside [with self.without_callers():], [write] dumps no stack, also
    when the option [callers] is on: on a sink without filters it writes the
    message (and the caller's [self], with that option) and nothing else,
    and afterwards the suppression flag is what it was. *)
Theorem write_without_callers (self : DebugControl) (f : IO) (msg : string)
    (caller : FrameInfo) (rest : list FrameInfo) (w : World) :
  outfile (output self) = Some f ->
  filters (output self) = [] ->
  call_stack w = caller :: rest ->
  exists self' w',
    without_callers self (write_block msg) w = (Ok tt, self', w')
    /\ suppress_callers self' = suppress_callers self
    /\ events w'
       = events w ++ [EvWrite f (msg +:+ nl); EvFlush f]
         ++ (if py_in "self" (options self) then
               match f_self caller with
               | Some caller_self =>
                   [EvWrite f ("self: " +:+ caller_self +:+ nl); EvFlush f]
               | None => []
               end
             else [])
         ++ [EvFlush f].
Proof.
  intros Hf Hfl Hcs.
  destruct (write_events (set_suppress_callers true self) f msg caller rest w
              Hf Hfl Hcs) as (w' & Hw & _ & He).
  unfold without_callers, write_block. rewrite Hw.
  eexists. exists w'. split; [reflexivity|]. split; [reflexivity|].
  rewrite He.
  replace (should (set_suppress_callers true self) "callers") with false
    by reflexivity.
  reflexivity.
Qed.

Lemma write_self_and_callers_witness :
  exists w',
    write {| options := ["callers"]; suppress_callers := false;
             output := {| oid := 0; outfile := Some sys_stderr;
                          show_process := false; filters := [] |};
             raw_output := Some sys_stderr |} "here" a_world = (Ok tt, w')
    /\ call_stack w' = call_stack a_world
    /\ events w'
       = [EvWrite sys_stderr ("here" +:+ nl); EvFlush sys_stderr;
          EvWrite sys_stderr
            (join nl (map frame_line (rev (call_stack a_world))));
          EvFlush sys_stderr; EvWrite sys_stderr nl; EvFlush sys_stderr;
          EvFlush sys_stderr].
Proof.
  exact (write_self_and_callers
           {| options := ["callers"]; suppress_callers := false;
              output := {| oid := 0; outfile := Some sys_stderr;
                           show_process := false; filters := [] |};
              raw_output := Some sys_stderr |} sys_stderr "here"
           _ _ a_world eq_refl eq_refl eq_refl).
Defined.

Lemma write_without_callers_witness :
  exists self' w',
    without_callers
      {| options := ["callers"]; suppress_callers := false;
         output := {| oid := 0; outfile := Some sys_stderr;
                      show_process := false; filters := [] |};
         raw_output := Some sys_stderr |} (write_block "here") a_world
    = (Ok tt, self', w')
    /\ suppress_callers self' = false
    /\ events w'
       = [EvWrite sys_stderr ("here" +:+ nl); EvFlush sys_stderr;
          EvFlush sys_stderr].
Proof.
  exact (write_without_callers
           {| options := ["callers"]; suppress_callers := false;
              output := {| oid := 0; outfile := Some sys_stderr;
                           show_process := false; filters := [] |};
              raw_output := Some sys_stderr |} sys_stderr "here"
           _ _ a_world eq_refl eq_refl eq_refl).
Defined.

(** *** [DebugControlString]: what [get_output] returns *)

Lemma write_plain (self : DebugControl) (f : IO) (msg : string) (w : World) :
  outfile (output self) = Some f ->
  filters (output self) = [] ->
  should self "self" = false ->
  should self "callers" = false ->
  exists w',
    write self msg w = (Ok tt, w')
    /\ events w' = events w ++ [EvWrite f (msg +:+ nl); EvFlush f; EvFlush f]
    /\ next_oid w' = next_oid w.
Proof.
  intros Hf Hfl Hs Hc. unfold write.
  rewrite (bind_ok _ _ _ _ _ (DebugOutputFile_write_nil _ f _ w Hf Hfl)).
  rewrite Hs, Hc. unfold DebugOutputFile_flush. rewrite Hf.
  eexists. split; [reflexivity|].
  cbn [events set_events next_oid]. now rewrite <- !app_assoc.
Qed.

Lemma write_all_plain (self : DebugControl) (f : IO) (msgs : list string)
    (w : World) :
  outfile (output self) = Some f ->
  filters (output self) = [] ->
  should self "self" = false ->
  should self "callers" = false ->
  exists w',
    write_all self msgs w = (Ok tt, w')
    /\ written f (events w')
       = written f (events w)
         +:+ String.concat EmptyString (map (fun msg => msg +:+ nl) msgs).
Proof.
  intros Hf Hfl Hs Hc. unfold write_all. revert w.
  induction msgs as [|msg msgs IH]; intros w; cbn [foldM map].
  - exists w. split; [reflexivity|]. now rewrite append_empty_r.
  - destruct (write_plain self f msg w Hf Hfl Hs Hc) as (w1 & Hw & He & _).
    rewrite (bind_ok _ _ _ _ _ Hw).
    destruct (IH w1) as (w' & Hw' & He').
    exists w'. split; [exact Hw'|].
    rewrite He', He, written_app. cbn [written fold_right].
    rewrite IO_eqb_refl, append_empty_r, append_assoc. f_equal.
    destruct msgs; [now rewrite append_empty_r | reflexivity].
Qed.

(** A [DebugControlString] whose options have none of [pid], [process],
    [self] and [callers] collects the messages as they are: [get_output]
    returns every message written, in order, each followed by a newline
    and nothing else. *)
Theorem get_output_collects (opts msgs : list string) (w : World) :
  FORCED_DEBUG w = [] ->
  buffers_allocated w ->
  forallb (fun option => negb (py_in option opts))
    ["pid"; "process"; "self"; "callers"] = true ->
  fst (DebugControlString_messages opts msgs w)
  = Ok (String.concat EmptyString (map (fun msg => msg +:+ nl) msgs)).
Proof.
  intros HF Hb Hopts. cbn [forallb] in Hopts.
  apply andb_prop in Hopts as [Hpid Hopts].
  apply andb_prop in Hopts as [Hprocess Hopts].
  apply andb_prop in Hopts as [Hself Hopts].
  apply andb_prop in Hopts as [Hcallers _].
  apply negb_true_iff in Hpid, Hprocess, Hself, Hcallers.
  unfold DebugControlString_messages.
  assert (Hinit :
    DebugControlString_init opts w
    = (Ok {| options := opts ++ []; suppress_callers := false;
             output := {| oid := S (next_oid w);
                          outfile := Some (StringIO (next_oid w));
                          show_process := false; filters := [] |};
             raw_output := Some (StringIO (next_oid w)) |},
       set_next_oid (S (S (next_oid w))) w)).
  { unfold DebugControlString_init, DebugControl_init, bind, gets, new_oid.
    cbn [FORCED_DEBUG set_next_oid]. rewrite HF, app_nil_r.
    unfold should_on. cbn [String.eqb Ascii.eqb Bool.eqb andb].
    rewrite Hpid, Hprocess. reflexivity. }
  rewrite (bind_ok _ _ _ _ _ Hinit).
  match goal with
  | |- context [bind (write_all ?debug _) _ ?w0] =>
      destruct (write_all_plain debug (StringIO (next_oid w)) msgs w0
                  eq_refl eq_refl) as (w' & Hw & He)
  end.
  - unfold should, should_on. cbn [options String.eqb Ascii.eqb Bool.eqb andb].
    now rewrite app_nil_r.
  - unfold should, should_on. cbn [options suppress_callers andb].
    rewrite andb_false_r. now rewrite app_nil_r.
  - rewrite (bind_ok _ _ _ _ _ Hw).
    unfold get_output, gets, content. cbn [raw_output fst]. rewrite He.
    cbn [events set_next_oid]. rewrite written_nowhere; [reflexivity|].
    intros text Hin. apply Hb in Hin. lia.
Qed.

Lemma get_output_collects_witness :
  FORCED_DEBUG a_world = []
  /\ fst (DebugControlString_messages ["trace"] ["one"; "two  "] a_world)
     = Ok (String.concat EmptyString
             (map (fun msg => msg +:+ nl) ["one"; "two  "])).
Proof.
  split; [reflexivity|].
  apply (get_output_collects ["trace"] ["one"; "two  "] a_world).
  - reflexivity.
  - intros i text [].
  - reflexivity.
Defined.

(** *** [info_header], [info_formatter], [write_formatted_info] *)

(** A header is two dashes, the label between two spaces, and dashes up to
    62 characters; a label longer than 58 characters is not cut. *)
Theorem info_header_shape (label : string) :
  info_header label
  = "-- " +:+ label +:+ " " +:+ repeat_char "-" (58 - String.length label)
  /\ String.length (info_header label)
     = Nat.max 62 (String.length label + 4).
Proof.
  unfold info_header, ljust.
  assert (Hlen : String.length (" " +:+ label +:+ " ")
                 = String.length label + 2).
  { rewrite !length_append. cbn [String.length]. lia. }
  rewrite Hlen. replace (60 - (String.length label + 2))
    with (58 - String.length label) by lia.
  split.
  - now rewrite !append_assoc.
  - rewrite (length_append "--"),
      (length_append (" " +:+ label +:+ " ")), Hlen, length_repeat_char.
    cbn [String.length]. lia.
Qed.

Lemma labels_short_spec (info : list (string * InfoData)) :
  forallb (fun '(l, _) => Nat.ltb (String.length l) label_len) info = false
  <-> exists label data,
        In (label, data) info /\ label_len <= String.length label.
Proof.
  induction info as [|[l d] info IH]; cbn [forallb In].
  - split; [discriminate | intros (? & ? & [] & _)].
  - destruct (Nat.ltb_spec (String.length l) label_len) as [Hlt|Hge];
      cbn [andb].
    + rewrite IH. split.
      * intros (label & data & Hin & Hl). exists label, data. now split; [right|].
      * intros (label & data & [[= <- <-]|Hin] & Hl); [lia|].
        now exists label, data.
    + split; [|reflexivity]. intros _. exists l, d. split; [now left | exact Hge].
Qed.

(** [info_formatter] raises an [AssertionError] exactly when some label has
    30 characters or more; with no pairs at all it yields nothing. *)
Theorem info_formatter_asserts (info : list (string * InfoData)) :
  info_formatter [] = Ok []
  /\ ((exists reason, info_formatter info = Raise (AssertionError reason))
      <-> exists label data,
            In (label, data) info /\ 30 <= String.length label).
Proof.
  split; [reflexivity|].
  change 30 with label_len. rewrite <- labels_short_spec.
  unfold info_formatter. destruct info as [|p info].
  - split; [intros [? [=]] | discriminate].
  - destruct (forallb _ (p :: info)).
    + split; [intros [? [=]] | discriminate].
    + split; [reflexivity | intros _; now eexists].
Qed.




Lemma write_lines_events (f : IO) (lines : list string) (w : World) :
  exists w',
    foldM (fun _ line => emit (EvWrite f (" " +:+ line))) lines tt w
    = (Ok tt, w')
    /\ events w'
       = events w ++ map (fun line => EvWrite f (" " +:+ line)) lines.
Proof.
  revert w. induction lines as [|line lines IH]; intros w; cbn [foldM map].
  - exists w. split; [reflexivity | now rewrite app_nil_r].
  - erewrite bind_ok by reflexivity.
    destruct (IH (set_events (events w ++ [EvWrite f (" " +:+ line)]) w))
      as (w' & Hw & He).
    exists w'. split; [exact Hw|]. rewrite He. cbn [events set_events].
    now rewrite <- app_assoc.
Qed.

(** [write_formatted_info] writes the header and then every line of
    [info_formatter] with a space in front. When a label is too long, the
    header is written all the same before the [AssertionError] comes. *)
Theorem write_formatted_info_events (f : IO) (header : string)
    (info : list (string * InfoData)) (w : World) :
  exists w',
    events w'
    = events w ++ EvWrite f (info_header header)
        :: match info_formatter info with
           | Ok lines => map (fun line => EvWrite f (" " +:+ line)) lines
           | Raise _ => []
           end
    /\ write_formatted_info (fun text => emit (EvWrite f text)) header info w
       = (match info_formatter info with
          | Ok _ => Ok tt
          | Raise e => Raise e
          end, w').
Proof.
  unfold write_formatted_info.
  erewrite bind_ok by reflexivity.
  destruct (info_formatter info) as [lines|e].
  - destruct (write_lines_events f lines
                (set_events (events w ++ [EvWrite f (info_header header)]) w))
      as (w' & Hw & He).
    exists w'. split; [|exact Hw]. rewrite He. cbn [events set_events].
    now rewrite <- app_assoc.
  - eexists. split; [|reflexivity]. reflexivity.
Qed.

(** *** [relevant_environment_display] *)

Lemma prefix_spec (a s : string) :
  String.prefix a s = true <-> exists b, s = a +:+ b.
Proof.
  revert s. induction a as [|c a IH]; intros s.
  - split; [intros _; now exists s | intros _; now destruct s].
  - destruct s as [|d s]; cbn [String.prefix].
    + split; [discriminate | intros [b [=]]].
    + destruct (ascii_dec c d) as [->|Hne].
      * rewrite IH. split; intros [b Hb]; exists b.
        -- now rewrite append_cons, <- Hb.
        -- rewrite append_cons in Hb. now injection Hb.
      * split; [discriminate|]. intros [b Hb].
        rewrite append_cons in Hb. injection Hb as -> _. now elim Hne.
Qed.

(** [str_in sub s] is Python's [sub in s]: [sub] occurs somewhere in [s]. *)
Lemma str_in_spec (sub s : string) :
  str_in sub s = true <-> exists a b, s = a +:+ sub +:+ b.
Proof.
  induction s as [|c s IH]; cbn [str_in].
  - rewrite orb_false_r, prefix_spec. split.
    + intros [b Hb]. now exists EmptyString, b.
    + intros (a & b & H). destruct a; [now exists b | discriminate].
  - rewrite orb_true_iff, prefix_spec, IH. split.
    + intros [[b Hb] | (a & b & ->)].
      * now exists EmptyString, b.
      * now exists (String c a), b.
    + intros (a & b & H). destruct a as [|c' a].
      * left. now exists b.
      * right. rewrite append_cons in H. injection H as _ ->. now exists a, b.
Qed.

Lemma existsb_str_in (markers : list string) (name : string) :
  existsb (fun slug => str_in slug name) markers = true
  <-> exists slug a b, In slug markers /\ name = a +:+ slug +:+ b.
Proof.
  rewrite existsb_exists. split.
  - intros (slug & Hin & (a & b & H)%str_in_spec). now exists slug, a, b.
  - intros (slug & a & b & Hin & H). exists slug. split; [exact Hin|].
    apply str_in_spec. now exists a, b.
Qed.

Lemma keep_spec (name : string) :
  keep name = true
  <-> In name include
      \/ exists slug a b, In slug slugs /\ name = a +:+ slug +:+ b.
Proof.
  unfold keep. rewrite <- existsb_str_in, <- py_in_In.
  destruct (py_in name include); [tauto|].
  destruct (existsb _ slugs); [tauto|].
  split; [discriminate | intros [|]; discriminate].
Qed.

Lemma to_show_spec (env : list (string * string)) (name shown : string) :
  In (name, shown) (to_show env)
  <-> exists val,
        In (name, val) env /\ keep name = true
        /\ shown = if existsb (fun slug => str_in slug name) cloak
                   then cloak_value val else val.
Proof.
  induction env as [|[n v] env IH]; cbn [to_show In].
  - split; [intros [] | intros (? & [] & _)].
  - destruct (keep n) eqn:Hk; cbn [In]; rewrite IH; split.
    + intros [[= <- <-] | (val & Hin & Hkeep & Hs)].
      * exists v. repeat split; [now left | exact Hk].
      * exists val. repeat split; [now right | assumption..].
    + intros (val & [[= <- <-] | Hin] & Hkeep & ->); [now left|].
      right. now exists val.
    + intros (val & Hin & Hkeep & Hs). exists val. now split; [right|].
    + intros (val & [[= <- <-] | Hin] & Hkeep & Hs); [congruence|].
      now exists val.
Qed.

Section EnvironmentDisplay.

Variable human_sorted_items : list (string * string) -> list (string * string).

(** Sorting neither adds nor loses an item. *)
Hypothesis sorted_same_items :
  forall l x, In x (human_sorted_items l) <-> In x l.

(** The display shows a variable exactly when it is in the environment and
    its name is [HOME], [TEMP] or [TMP] or has [COV] or [PY] in it; the
    value shown is the variable's value, cloaked if the name has one of
    [API], [TOKEN], [KEY], [SECRET], [PASS], [SIGNATURE] in it. *)
Theorem relevant_environment_display_shows
    (env : list (string * string)) (name shown : string) :
  In (name, shown) (relevant_environment_display human_sorted_items env)
  <-> exists val,
        In (name, val) env
        /\ (In name ["HOME"; "TEMP"; "TMP"]
            \/ exists slug a b,
                 In slug ["COV"; "PY"] /\ name = a +:+ slug +:+ b)
        /\ shown = if existsb (fun slug => str_in slug name) cloak
                   then cloak_value val else val.
Proof.
  unfold relevant_environment_display.
  rewrite sorted_same_items, to_show_spec.
  split; intros (val & Hin & Hk & Hs); exists val;
    (split; [exact Hin|]; split; [|exact Hs]); now apply keep_spec.
Qed.

End EnvironmentDisplay.

Lemma insert_item_In (x y : string * string) (l : list (string * string)) :
  In y (insert_item x l) <-> y = x \/ In y l.
Proof.
  induction l as [|z l IH]; cbn [insert_item In].
  - split; [intros [<-|[]]; now left | intros [->|[]]; now left].
  - destruct (String.leb (fst x) (fst z)); cbn [In]; [|rewrite IH];
      intuition congruence.
Qed.

Lemma sort_items_In (l : list (string * string)) (x : string * string) :
  In x (sort_items l) <-> In x l.
Proof.
  induction l as [|y l IH]; [reflexivity|].
  unfold sort_items in *. cbn [fold_right In].
  rewrite insert_item_In, IH. intuition congruence.
Qed.

Lemma relevant_environment_display_shows_witness :
  In ("COV_API_KEY", "*********")
    (relevant_environment_display sort_items
       [("UNRELATED", "x"); ("COV_API_KEY", "secret123"); ("HOME", "/u")]).
Proof.
  apply (relevant_environment_display_shows sort_items sort_items_In).
  exists "secret123". split; [right; left; reflexivity|]. split.
  - right. exists "COV", EmptyString, "_API_KEY".
    split; [left; reflexivity | reflexivity].
  - reflexivity.
Defined.

Lemma cloak_value_length (val : string) :
  String.length (cloak_value val) = String.length val.
Proof. induction val as [|c val IH]; [reflexivity|]. cbn. now rewrite IH. Qed.

(** Cloaking replaces every word character by an asterisk and keeps every
    other character: the cloaked value is as long as the value, has no word
    character left, and a value without word characters is shown as it
    is. A variable is cloaked exactly when one of the markers occurs in
    its name. *)
Theorem cloak_value_hides (name val : string) :
  String.length (cloak_value val) = String.length val
  /\ all_chars (fun c => negb (is_word c)) (cloak_value val) = true
  /\ (all_chars (fun c => negb (is_word c)) val = true ->
      cloak_value val = val)
  /\ (existsb (fun slug => str_in slug name) cloak = true
      <-> exists slug a b,
            In slug ["API"; "TOKEN"; "KEY"; "SECRET"; "PASS"; "SIGNATURE"]
            /\ name = a +:+ slug +:+ b).
Proof.
  split; [apply cloak_value_length|]. split; [|split].
  - induction val as [|c val IH]; [reflexivity|].
    cbn [cloak_value all_chars]. rewrite IH.
    destruct (is_word c) eqn:E; [reflexivity | now rewrite E].
  - induction val as [|c val IH]; [reflexivity|].
    cbn [cloak_value all_chars]. intros [Hc Hv]%andb_prop.
    apply negb_true_iff in Hc. now rewrite Hc, IH.
  - apply existsb_str_in.
Qed.

(** *** [log] *)



Lemma singleton_of_quiet (w w' : World) :
  quiet w w' -> singleton_of w' = singleton_of w.
Proof.
  intros (Hm & _). unfold singleton_of, _get_singleton_data, gets.
  now rewrite Hm.
Qed.



(** *** Controllers and their sinks *)

(** A controller given a stream is always made: its sink is a new one
    around that stream, shows the process exactly when [process] is among
    the options, and leaves the singleton and the file system alone. *)
Theorem DebugControl_init_with_stream (opts : list string) (f : IO)
    (file_name : option string) (w : World) :
  exists self w',
    DebugControl_init opts (Some f) file_name w = (Ok self, w')
    /\ options self = opts ++ FORCED_DEBUG w
    /\ raw_output self = Some f
    /\ oid (output self) = next_oid w
    /\ show_process (output self)
       = py_in "process" (opts ++ FORCED_DEBUG w)
    /\ singleton_of w' = singleton_of w
    /\ opened w' = opened w.
Proof.
  unfold DebugControl_init.
  erewrite bind_ok by reflexivity.
  match goal with
  | |- context [get_one (Some f) _ ?show ?fl _] =>
      destruct (returns_inv _ _ _ (DebugOutputFile_init_returns f show fl w))
        as (out & w' & Hi & Hoid & Hout & Hshow & Hq)
  end.
  unfold get_one at 1. rewrite (bind_ok _ _ _ _ _ Hi).
  eexists. exists w'. split; [reflexivity|].
  cbn [options raw_output output].
  repeat split; try assumption.
  - apply (singleton_of_quiet _ _ Hq).
  - apply Hq.
Qed.

(** Controllers made without a stream share one sink: once a first one is
    made, a second one gets the first one's sink as it is, whatever its own
    options and file name, and making it writes nothing and opens nothing.
    Its [pid] or [process] option has no effect on that sink. *)
Theorem DebugControl_share_the_sink (opts1 opts2 : list string)
    (file_name1 file_name2 : option string) (w w1 : World)
    (first : DebugControl) :
  DebugControl_init opts1 None file_name1 w = (Ok first, w1) ->
  exists second,
    DebugControl_init opts2 None file_name2 w1 = (Ok second, w1)
    /\ output second = output first
    /\ options second = opts2 ++ FORCED_DEBUG w1.
Proof.
  unfold DebugControl_init at 1. unfold bind at 1, gets at 1.
  unfold bind at 1.
  destruct (get_one None file_name1 _ _ false w) as [[out|e] w0] eqn:Hg;
    [|discriminate].
  unfold ret. intros [= <- <-].
  apply get_one_sets_singleton in Hg.
  unfold DebugControl_init.
  erewrite bind_ok by reflexivity.
  erewrite bind_ok by (apply get_one_locked_in; exact Hg).
  eexists. split; [reflexivity|]. split; reflexivity.
Qed.

Lemma DebugControl_share_the_sink_witness :
  exists first w1 second,
    DebugControl_init [] None None a_world = (Ok first, w1)
    /\ DebugControl_init ["pid"; "process"] None (Some "debug.txt") w1
       = (Ok second, w1)
    /\ output second = output first
    /\ options second = ["pid"; "process"] ++ FORCED_DEBUG w1.
Proof.
  do 2 eexists.
  assert (H : DebugControl_init [] None None a_world = (Ok _, _))
    by (vm_compute; reflexivity).
  destruct (DebugControl_share_the_sink [] ["pid"; "process"] None
              (Some "debug.txt") _ _ _ H) as (second & H2).
  exists second. split; [exact H | exact H2].
Defined.

Lemma cloak_value_hides_witness :
  all_chars (fun c => negb (is_word c)) "/~/.:" = true
  /\ cloak_value "/~/.:" = "/~/.:".
Proof.
  split; [reflexivity|].
  apply (proj1 (proj2 (proj2 (cloak_value_hides "HOME" "/~/.:")))).
  reflexivity.
Defined.
